(** * SmartMedicare: the route handlers of app.js and their properties

    A shallow embedding of the Express application in [src/app.js], with
    the Mongoose schemas of Patient, Medicine and Prescription.  Every
    route handler is a computation in a small state-and-exception monad
    over the document store.  What the handlers call and the sources do
    not define (the BSON ObjectId constructor, Mongoose's Number cast,
    the schema of models/User.js) is gathered in one [Platform] class. *)

From Stdlib Require Import String Ascii List ZArith Lia Bool PrimFloat.
From Stdlib Require Import Sorted Permutation.
Import ListNotations.
Open Scope string_scope.

(* ================================================================== *)
(** * JavaScript text and numbers *)
(* ================================================================== *)

Module Js.

(** A JavaScript string is modelled by [string]; a character stands for
    a code unit below 256. *)

(** [s.includes(pat)]: [pat] occurs as a contiguous run of [s]. *)
Fixpoint includes (s pat : string) : bool :=
  if prefix pat s then true
  else match s with
       | EmptyString => false
       | String _ rest => includes rest pat
       end.

(** StrWhiteSpaceChar restricted to code units below 256: TAB, LF, VT,
    FF, CR, SP and NBSP. *)
Definition isWhiteSpace (c : ascii) : bool :=
  let n := nat_of_ascii c in
  (((9 <=? n) && (n <=? 13)) || (n =? 32) || (n =? 160))%nat.

Fixpoint trimStart (s : string) : string :=
  match s with
  | String c rest => if isWhiteSpace c then trimStart rest else s
  | EmptyString => EmptyString
  end.

(** The value of a digit in radixes up to 36: 0-9, a-z, A-Z. *)
Definition digitValue (c : ascii) : option Z :=
  let n := Z.of_nat (nat_of_ascii c) in
  if ((48 <=? n) && (n <=? 57))%Z then Some (n - 48)%Z
  else if ((97 <=? n) && (n <=? 122))%Z then Some (n - 87)%Z
  else if ((65 <=? n) && (n <=? 90))%Z then Some (n - 55)%Z
  else None.

(** The longest prefix of radix-[R] digits, read left to right; [acc] is
    [None] while no digit has been read. *)
Fixpoint digitsPrefix (R : Z) (s : string) (acc : option Z) : option Z :=
  match s with
  | EmptyString => acc
  | String c rest =>
      match digitValue c with
      | Some d =>
          if (d <? R)%Z
          then digitsPrefix R rest
                 (Some (match acc with Some a => a * R + d | None => d end)%Z)
          else acc
      | None => acc
      end
  end.

(** [parseInt(s)] with no radix argument (ECMAScript 19.2.5).  [None] is
    NaN.  The result is a mathematical integer: the only use the handler
    makes of it is the comparison with 140, which rounding to a double
    does not change. *)
Definition parseInt (s : string) : option Z :=
  let s1 := trimStart s in
  let '(sign, s2) :=
    match s1 with
    | String "-" r => (-1, r)
    | String "+" r => (1, r)
    | _ => (1, s1)
    end%Z in
  let '(R, s3) :=
    match s2 with
    | String "0" (String "x" r) => (16, r)
    | String "0" (String "X" r) => (16, r)
    | _ => (10, s2)
    end%Z in
  option_map (Z.mul sign) (digitsPrefix R s3 None).

(** [a > b] where [a] may be NaN: every comparison with NaN is false. *)
Definition gt (a : option Z) (b : Z) : bool :=
  match a with
  | Some x => (b <? x)%Z
  | None => false
  end.

(** [v || d] on an optional string: undefined, null and the empty string
    are falsy. *)
Definition orElse (v : option string) (d : string) : string :=
  match v with
  | Some EmptyString | None => d
  | Some s => s
  end.

(** [arr.includes(x)] on an array of strings. *)
Definition arrayIncludes (arr : list string) (x : string) : bool :=
  existsb (String.eqb x) arr.

End Js.

(* ================================================================== *)
(** * The stored documents (models/*.js) *)
(* ================================================================== *)

(** An ObjectId, by its canonical text [String(id)]. *)
Definition ObjectId := string.

(** A path of schema type Number holds a double, or nothing. *)
Definition Number := option float.

(** [String(v)] of a reference that may be missing. *)
Definition String_ (v : option ObjectId) : string :=
  match v with
  | Some id => id
  | None => "undefined"
  end.

Module Vitals.
Record t := mk {
  bp : option string;
  sugar : option string;
  weight : option string;
  temperature : option string }.
End Vitals.

Module Schedule.
Record t := mk { date : option Z; type : option string; status : option string }.
End Schedule.

Module Notification.
Record t := mk { message : option string; date : option Z }.
End Notification.

(** patientSchema. *)
Module Patient.
Record t := mk {
  _id : ObjectId;
  patientCode : string;
  name : option string;
  age : Number;
  gender : option string;
  bloodGroup : option string;
  phone : option string;
  hospital : option string;
  medicines : list ObjectId;
  schedules : list Schedule.t;
  notifications : list Notification.t;
  vitals : option Vitals.t;
  assignedDoctor : option ObjectId;
  image : option string }.

(** [patient.assignedDoctor = d]. *)
Definition set_assignedDoctor (d : ObjectId) (p : t) : t :=
  mk (_id p) (patientCode p) (name p) (age p) (gender p) (bloodGroup p)
     (phone p) (hospital p) (medicines p) (schedules p) (notifications p)
     (vitals p) (Some d) (image p).
End Patient.

(** medicineSchema. *)
Module Medicine.
Record t := mk {
  _id : ObjectId;
  name : option string;
  dosesRemaining : Number;
  frequency : option string;
  reason : option string;
  patient : option ObjectId }.
End Medicine.

(** One embedded line of prescriptionSchema.medicines, by its three
    declared paths. *)
Module RxLine.
Record t := mk { name : option string; dosage : Number; days : Number }.
End RxLine.

(** prescriptionSchema. *)
Module Prescription.
Record t := mk {
  _id : ObjectId;
  patient : option ObjectId;
  doctor : option ObjectId;
  medicines : list RxLine.t;
  notes : option string;
  date : Z }.
End Prescription.

(** Modelled from the spec: models/User.js is not among the sources.  A
    User has an email, a password (hashed at rest), a role and a
    reference to one Patient; these are also the paths app.js and
    config/passport.js read and write. *)
Module User.
Record t := mk {
  _id : ObjectId;
  email : string;
  password : string;
  role : string;
  patient : option ObjectId }.
End User.

(** The four collections. *)
Module DB.
Record t := mk {
  users : list User.t;
  patients : list Patient.t;
  medicines : list Medicine.t;
  prescriptions : list Prescription.t }.

Definition with_users (f : list User.t -> list User.t) (d : t) : t :=
  mk (f (users d)) (patients d) (medicines d) (prescriptions d).
Definition with_patients (f : list Patient.t -> list Patient.t) (d : t) : t :=
  mk (users d) (f (patients d)) (medicines d) (prescriptions d).
Definition with_medicines (f : list Medicine.t -> list Medicine.t) (d : t) : t :=
  mk (users d) (patients d) (f (medicines d)) (prescriptions d).
Definition with_prescriptions
    (f : list Prescription.t -> list Prescription.t) (d : t) : t :=
  mk (users d) (patients d) (medicines d) (f (prescriptions d)).
End DB.

(* ================================================================== *)
(** * What the handlers call and the repository does not define *)
(* ================================================================== *)

Class Platform := {
  (** [new ObjectId(s)] of the BSON library on a string: the id, or
      [None] when the constructor throws. *)
  ObjectId_fromString : string -> option ObjectId;
  (** The [n]-th identifier the driver generates for a new document. *)
  ObjectId_generate : nat -> ObjectId;
  (** Mongoose's cast of a submitted text to a Number path: [None] when
      the cast fails, [Some None] when it yields null. *)
  Number_cast : string -> option Number;
  (** The password hash of the pre-save hook of models/User.js. *)
  hashPassword : string -> string;
  (** The validators of the schema of models/User.js. *)
  User_validate : User.t -> bool }.

(* ================================================================== *)
(** * Requests, responses and the handler monad *)
(* ================================================================== *)

(** The calls a handler makes on the models, in the order made. *)
Module Call.
Inductive t :=
| User_findOne
| User_save
| Patient_findOne
| Patient_create
| Patient_findById
| Patient_save
| Medicine_find
| Medicine_findById
| Medicine_save
| Medicine_findByIdAndDelete
| Prescription_find
| Prescription_save.
End Call.

(** What JavaScript throws. *)
Inductive Exn :=
| TypeError (what : string)
| CastError (path : string)
| ValidationError (model : string)
| DuplicateKey (path : string).

Record World := mkWorld {
  db : DB.t;
  (** how many identifiers the driver has generated *)
  oids : nat;
  (** [Date.now()] *)
  now : Z;
  (** [req.flash(kind, msg)], newest first *)
  flash : list (string * string);
  (** the model calls made, newest first *)
  calls : list Call.t }.

Inductive Res (A : Type) :=
| Val (a : A)
| Throw (e : Exn).
Arguments Val {A} a.
Arguments Throw {A} e.

(** A computation reads and writes the world and returns or throws;
    what was written before a throw stays written. *)
Definition M (A : Type) := World -> Res A * World.

Definition ret {A} (a : A) : M A := fun w => (Val a, w).

Definition bind {A B} (m : M A) (k : A -> M B) : M B :=
  fun w => match m w with
           | (Val a, w1) => k a w1
           | (Throw e, w1) => (Throw e, w1)
           end.

Definition throw {A} (e : Exn) : M A := fun w => (Throw e, w).

(** [try { m } catch (err) { h err }]. *)
Definition try_catch {A} (m : M A) (h : Exn -> M A) : M A :=
  fun w => match m w with
           | (Val a, w1) => (Val a, w1)
           | (Throw e, w1) => h e w1
           end.

Definition get_db : M DB.t := fun w => (Val (db w), w).

Definition modify_db (f : DB.t -> DB.t) : M unit :=
  fun w => (Val tt, mkWorld (f (db w)) (oids w) (now w) (flash w) (calls w)).

Definition get_now : M Z := fun w => (Val (now w), w).

Definition called (c : Call.t) : M unit :=
  fun w => (Val tt, mkWorld (db w) (oids w) (now w) (flash w) (c :: calls w)).

Definition req_flash (kind msg : string) : M unit :=
  fun w => (Val tt,
            mkWorld (db w) (oids w) (now w) ((kind, msg) :: flash w) (calls w)).

Declare Scope handler_scope.
Delimit Scope handler_scope with handler.
Notation "x <- m ;; k" := (bind m (fun x => k))
  (at level 100, m at next level, right associativity) : handler_scope.
Notation "m ;;; k" := (bind m (fun _ => k))
  (at level 100, right associativity) : handler_scope.
Open Scope handler_scope.

(** A document built by [new Model({...})] or changed by assignment:
    Mongoose keeps a failed cast inside the document and reports it when
    the document is saved. *)
Inductive Unsaved (A : Type) :=
| Clean (doc : A)
| Invalid (path : string).
Arguments Clean {A} doc.
Arguments Invalid {A} path.

(** The submitted forms ([req.body]); every field arrives as text. *)
Module SignupForm.
Record t := mk {
  email : string; password : string; role : string;
  name : string; patientId : string }.
End SignupForm.

Module MedicineForm.
Record t := mk {
  name : string; dosesRemaining : string;
  frequency : string; reason : string }.
End MedicineForm.

Module RxLineForm.
Record t := mk { name : string; dosage : string; days : string }.
End RxLineForm.

Module PrescriptionForm.
Record t := mk { medicines : list RxLineForm.t; notes : string }.
End PrescriptionForm.

(** A request as a handler sees it: [req.user] as Passport's session
    middleware left it, and [req.params.id]. *)
Record Request := mkRequest {
  user : option User.t;
  params_id : string }.

(** The result of the scoring block of the AI-insights handler. *)
Record Insight := mkInsight {
  score : Z;
  risks : list string;
  suggestions : list string }.

(** [res.render(view, locals)], one constructor per template. *)
Inductive View :=
| patientView (patient : Patient.t)
| doctorView (patient : Patient.t) (medicines : list Medicine.t)
| medicineView (patient : Patient.t) (medicines : list Medicine.t)
| doctorPrescriptions (patient : Patient.t)
    (prescriptions : list Prescription.t)
| aiInsights (patient : Patient.t) (insight : Insight).

Inductive Response :=
| Render (v : View)
| Redirect (location : string)
| Send (status : nat) (body : string).

(** [res.send(body)] with the default status. *)
Definition send (body : string) : Response := Send 200 body.

(* ================================================================== *)
(** * The Mongoose models as operations on the store *)
(* ================================================================== *)

Section Models.
Context `{P : Platform}.

(** The driver generates the identifier of a new document. *)
Definition new_ObjectId : M ObjectId :=
  fun w => (Val (ObjectId_generate (oids w)),
            mkWorld (db w) (S (oids w)) (now w) (flash w) (calls w)).

(** [mongoose.Types.ObjectId.isValid(s)]: the constructor does not
    throw. *)
Definition ObjectId_isValid (s : string) : bool :=
  match ObjectId_fromString s with
  | Some _ => true
  | None => false
  end.

(** Mongoose casts the text given for an ObjectId path of a query. *)
Definition castObjectId (path s : string) : M ObjectId :=
  match ObjectId_fromString s with
  | Some id => ret id
  | None => throw (CastError path)
  end.

(** [User.findOne({ email })]. *)
Definition User_findOne (email : string) : M (option User.t) :=
  called Call.User_findOne ;;;
  d <- get_db ;;
  ret (find (fun u => User.email u =? email) (DB.users d)).

(** [new User({ email, password, role, patient })]. *)
Definition new_User (email password role : string) (patient : ObjectId)
  : M User.t :=
  id <- new_ObjectId ;;
  ret (User.mk id email password role (Some patient)).

(** [user.save()] of a new user: the schema validates, the pre-save hook
    hashes the password, the document is inserted. *)
Definition User_save (u : User.t) : M unit :=
  called Call.User_save ;;;
  if User_validate u
  then modify_db (DB.with_users (fun us =>
         (us ++ [User.mk (User._id u) (User.email u)
                         (hashPassword (User.password u))
                         (User.role u) (User.patient u)])%list))
  else throw (ValidationError "User").

(** [Patient.findOne({ patientCode })]. *)
Definition Patient_findOne (patientCode : string) : M (option Patient.t) :=
  called Call.Patient_findOne ;;;
  d <- get_db ;;
  ret (find (fun p => Patient.patientCode p =? patientCode) (DB.patients d)).

(** [Patient.create({ name, patientCode })]; [patientCode] is a unique
    index. *)
Definition Patient_create (name patientCode : string) : M Patient.t :=
  called Call.Patient_create ;;;
  id <- new_ObjectId ;;
  d <- get_db ;;
  if existsb (fun p => Patient.patientCode p =? patientCode) (DB.patients d)
  then throw (DuplicateKey "patientCode")
  else
    let p := Patient.mk id patientCode (Some name) None None None None None
                        [] [] [] None None None in
    modify_db (DB.with_patients (fun ps => (ps ++ [p])%list)) ;;;
    ret p.

(** [Patient.findById(id)] when [id] is already an ObjectId. *)
Definition Patient_findById_oid (id : ObjectId) : M (option Patient.t) :=
  called Call.Patient_findById ;;;
  d <- get_db ;;
  ret (find (fun p => Patient._id p =? id) (DB.patients d)).

(** [Patient.findById(id)] when [id] is the text of a path parameter. *)
Definition Patient_findById (id : string) : M (option Patient.t) :=
  called Call.Patient_findById ;;;
  oid <- castObjectId "_id" id ;;
  d <- get_db ;;
  ret (find (fun p => Patient._id p =? oid) (DB.patients d)).

(** [patient.save()] of a loaded patient: the stored document with this
    [_id] takes the new content. *)
Definition Patient_save (p : Patient.t) : M unit :=
  called Call.Patient_save ;;;
  modify_db (DB.with_patients
    (map (fun q => if Patient._id q =? Patient._id p then p else q))).

(** [Medicine.find({ _id: { $in: ids } })]. *)
Definition Medicine_find_in (ids : list ObjectId) : M (list Medicine.t) :=
  called Call.Medicine_find ;;;
  d <- get_db ;;
  ret (filter (fun m => existsb (String.eqb (Medicine._id m)) ids)
              (DB.medicines d)).

(** [Medicine.find({ patient: id })]. *)
Definition Medicine_find_patient (id : ObjectId) : M (list Medicine.t) :=
  called Call.Medicine_find ;;;
  d <- get_db ;;
  ret (filter (fun m => match Medicine.patient m with
                        | Some q => q =? id
                        | None => false
                        end) (DB.medicines d)).

(** The four assignments [med.name = ...; ...; med.reason = ...], also
    the first four paths of [new Medicine({...})]. *)
Definition Medicine_assign (f : MedicineForm.t) (id : ObjectId)
    (patient : option ObjectId) : Unsaved Medicine.t :=
  match Number_cast (MedicineForm.dosesRemaining f) with
  | Some n =>
      Clean (Medicine.mk id (Some (MedicineForm.name f)) n
               (Some (MedicineForm.frequency f))
               (Some (MedicineForm.reason f)) patient)
  | None => Invalid "dosesRemaining"
  end.

(** [new Medicine({ name, dosesRemaining, frequency, reason, patient })]
    with [patient] the text of a path parameter. *)
Definition new_Medicine (f : MedicineForm.t) (patient : string)
  : M (Unsaved Medicine.t) :=
  id <- new_ObjectId ;;
  ret (match ObjectId_fromString patient with
       | Some pid => Medicine_assign f id (Some pid)
       | None => Invalid "patient"
       end).

(** [newMed.save()]: validation reports a failed cast, else the document
    is inserted. *)
Definition Medicine_save_new (m : Unsaved Medicine.t) : M unit :=
  called Call.Medicine_save ;;;
  match m with
  | Clean doc => modify_db (DB.with_medicines (fun ms => (ms ++ [doc])%list))
  | Invalid path => throw (ValidationError path)
  end.

(** [Medicine.findById(id)]. *)
Definition Medicine_findById (id : string) : M (option Medicine.t) :=
  called Call.Medicine_findById ;;;
  oid <- castObjectId "_id" id ;;
  d <- get_db ;;
  ret (find (fun m => Medicine._id m =? oid) (DB.medicines d)).

(** [med.save()] of a loaded medicine. *)
Definition Medicine_save (m : Unsaved Medicine.t) : M unit :=
  called Call.Medicine_save ;;;
  match m with
  | Clean doc =>
      modify_db (DB.with_medicines
        (map (fun q => if Medicine._id q =? Medicine._id doc
                       then doc else q)))
  | Invalid path => throw (ValidationError path)
  end.

(** [Medicine.findByIdAndDelete(id)]: the first document with this id is
    removed and returned, or null when there is none. *)
Fixpoint remove_first {A} (f : A -> bool) (l : list A) : list A :=
  match l with
  | [] => []
  | x :: rest => if f x then rest else x :: remove_first f rest
  end.

Definition Medicine_findByIdAndDelete (id : string) : M (option Medicine.t) :=
  called Call.Medicine_findByIdAndDelete ;;;
  oid <- castObjectId "_id" id ;;
  d <- get_db ;;
  let hit := fun m => Medicine._id m =? oid in
  modify_db (DB.with_medicines (remove_first hit)) ;;;
  ret (find hit (DB.medicines d)).

(** [.sort({ date: -1 })]: by descending date. *)
Fixpoint insert_by_date (x : Prescription.t) (l : list Prescription.t)
  : list Prescription.t :=
  match l with
  | [] => [x]
  | y :: rest =>
      if (Prescription.date y <? Prescription.date x)%Z
      then x :: l
      else y :: insert_by_date x rest
  end.

Definition sort_date_desc (l : list Prescription.t) : list Prescription.t :=
  fold_right insert_by_date [] l.

(** [Prescription.find({ patient: id })]. *)
Definition Prescription_find (id : ObjectId) : M (list Prescription.t) :=
  called Call.Prescription_find ;;;
  d <- get_db ;;
  ret (filter (fun r => match Prescription.patient r with
                        | Some q => q =? id
                        | None => false
                        end) (DB.prescriptions d)).

(** The cast of the submitted medicine lines. *)
Fixpoint cast_lines (ls : list RxLineForm.t) : option (list RxLine.t) :=
  match ls with
  | [] => Some []
  | l :: rest =>
      match Number_cast (RxLineForm.dosage l),
            Number_cast (RxLineForm.days l),
            cast_lines rest with
      | Some dosage, Some days, Some out =>
          Some (RxLine.mk (Some (RxLineForm.name l)) dosage days :: out)
      | _, _, _ => None
      end
  end.

(** [new Prescription({ patient, doctor, medicines, notes })]; [date]
    takes its default, [Date.now]. *)
Definition new_Prescription (patient : string) (doctor : ObjectId)
    (f : PrescriptionForm.t) : M (Unsaved Prescription.t) :=
  id <- new_ObjectId ;;
  date <- get_now ;;
  ret (match ObjectId_fromString patient with
       | None => Invalid "patient"
       | Some pid =>
           match cast_lines (PrescriptionForm.medicines f) with
           | None => Invalid "medicines"
           | Some lines =>
               Clean (Prescription.mk id (Some pid) (Some doctor) lines
                        (Some (PrescriptionForm.notes f)) date)
           end
       end).

(** [newPrescription.save()]. *)
Definition Prescription_save (r : Unsaved Prescription.t) : M unit :=
  called Call.Prescription_save ;;;
  match r with
  | Clean doc => modify_db (DB.with_prescriptions (fun rs => (rs ++ [doc])%list))
  | Invalid path => throw (ValidationError path)
  end.

End Models.

(* ================================================================== *)
(** * The scoring block of the AI-insights handler (app.js 396-427) *)
(* ================================================================== *)

(** [arr.push(x)]. *)
Definition push {A} (arr : list A) (x : A) : list A := (arr ++ [x])%list.

(** [patient.vitals?.bp] and [patient.vitals?.sugar]. *)
Definition vitals_bp (patient : Patient.t) : option string :=
  match Patient.vitals patient with
  | Some v => Vitals.bp v
  | None => None
  end.

Definition vitals_sugar (patient : Patient.t) : option string :=
  match Patient.vitals patient with
  | Some v => Vitals.sugar v
  | None => None
  end.

(** The value of [sugar] in the handler: [None] is NaN. *)
Definition sugar_value (patient : Patient.t) : option Z :=
  Js.parseInt (Js.orElse (vitals_sugar patient) "0").

(** The block itself: [score], [risks] and [suggestions] are the three
    mutable variables, rebound at each statement. *)
Definition aiLogic (patient : Patient.t) (prescriptions : list Prescription.t)
  : Insight :=
  let score := 100%Z in
  let risks : list string := [] in
  let suggestions : list string := [] in
  let bp := Js.orElse (vitals_bp patient) "" in
  let sugar := sugar_value patient in
  let '(risks, score) :=
    if Js.includes bp "140" || Js.includes bp "150"
    then (push risks "High Blood Pressure", (score - 20)%Z)
    else (risks, score) in
  let '(risks, score) :=
    if Js.gt sugar 140
    then (push risks "High Blood Sugar", (score - 20)%Z)
    else (risks, score) in
  let '(risks, score) :=
    if (3 <? List.length prescriptions)%nat
    then (push risks "Long-term medication dependency", (score - 10)%Z)
    else (risks, score) in
  let risks :=
    if (List.length risks =? 0)%nat
    then push risks "No major risks detected" else risks in
  let suggestions :=
    if (score <? 80)%Z
    then push suggestions "Lifestyle improvement recommended"
    else suggestions in
  let suggestions :=
    if Js.arrayIncludes risks "High Blood Pressure"
    then push suggestions "Reduce salt intake" else suggestions in
  let suggestions :=
    if Js.arrayIncludes risks "High Blood Sugar"
    then push suggestions "Avoid sugar and carbs" else suggestions in
  let suggestions :=
    if (List.length suggestions =? 0)%nat
    then push suggestions "Keep following current treatment"
    else suggestions in
  mkInsight score risks suggestions.

(** The same computation in the words of the specification (section 4.8),
    as a function of the bp text, the sugar text and the number of
    prescriptions. *)
Module Spec.

Definition highBP (bp : string) : bool :=
  Js.includes bp "140" || Js.includes bp "150".

Definition highSugar (sugar : string) : bool := Js.gt (Js.parseInt sugar) 140.

Definition longTerm (count : nat) : bool := (3 <? count)%nat.

Definition score (bp sugar : string) (count : nat) : Z :=
  (100 - (if highBP bp then 20 else 0)
       - (if highSugar sugar then 20 else 0)
       - (if longTerm count then 10 else 0))%Z.

Definition orDefault (l : list string) (d : string) : list string :=
  match l with
  | [] => [d]
  | _ => l
  end.

Definition risks (bp sugar : string) (count : nat) : list string :=
  orDefault
    ((if highBP bp then ["High Blood Pressure"] else [])
     ++ (if highSugar sugar then ["High Blood Sugar"] else [])
     ++ (if longTerm count then ["Long-term medication dependency"] else []))%list
    "No major risks detected".

Definition suggestions (bp sugar : string) (count : nat) : list string :=
  orDefault
    ((if (score bp sugar count <? 80)%Z
      then ["Lifestyle improvement recommended"] else [])
     ++ (if highBP bp then ["Reduce salt intake"] else [])
     ++ (if highSugar sugar then ["Avoid sugar and carbs"] else []))%list
    "Keep following current treatment".

Definition riskScoring (bp sugar : string) (count : nat) : Insight :=
  mkInsight (score bp sugar count) (risks bp sugar count)
            (suggestions bp sugar count).

End Spec.

(* ================================================================== *)
(** * Middleware and route handlers (app.js) *)
(* ================================================================== *)

Section Routes.
Context `{P : Platform}.

(** [isAuth]: [req.isAuthenticated()] holds when Passport has put a user
    on the request. *)
Definition isAuth (req : Request) (next : M Response) : M Response :=
  match user req with
  | Some _ => next
  | None => ret (Redirect "/login")
  end.

(** [isDoctor]. *)
Definition isDoctor (req : Request) (next : M Response) : M Response :=
  match user req with
  | Some u =>
      if User.role u =? "doctor" then next
      else ret (Send 403 "Access Denied: Doctors only")
  | None => ret (Send 403 "Access Denied: Doctors only")
  end.

(** Reading a property of [req.user]. *)
Definition req_user (req : Request) : M User.t :=
  match user req with
  | Some u => ret u
  | None => throw (TypeError "Cannot read properties of undefined")
  end.

(** The tail of the signup handler, step 3: create the user once. *)
Definition signup_create_user (f : SignupForm.t) (patient : Patient.t)
  : M Response :=
  u <- new_User (SignupForm.email f) (SignupForm.password f)
                (SignupForm.role f) (Patient._id patient) ;;
  User_save u ;;;
  ret (Redirect "/login").

(** POST /signup. *)
Definition post_signup (f : SignupForm.t) : M Response :=
  try_catch
    (existingUser <- User_findOne (SignupForm.email f) ;;
     match existingUser with
     | Some _ =>
         req_flash "error" "Email already registered" ;;;
         ret (Redirect "/signup")
     | None =>
         if SignupForm.role f =? "patient" then
           existingPatient <- Patient_findOne (SignupForm.patientId f) ;;
           match existingPatient with
           | Some _ =>
               req_flash "error" "Patient ID already exists" ;;;
               ret (Redirect "/signup")
           | None =>
               patient <- Patient_create (SignupForm.name f)
                                         (SignupForm.patientId f) ;;
               signup_create_user f patient
           end
         else
           patient <- Patient_findOne (SignupForm.patientId f) ;;
           match patient with
           | None =>
               req_flash "error" "Patient ID not found" ;;;
               ret (Redirect "/signup")
           | Some patient => signup_create_user f patient
           end
     end)
    (fun err =>
       req_flash "error" "Signup failed" ;;;
       ret (Redirect "/signup")).

(** GET /patient/:id, after [isAuth]. *)
Definition get_patient (req : Request) : M Response :=
  if (params_id req =? "") || (params_id req =? "undefined")
  then ret (Redirect "/dashboard")
  else if negb (ObjectId_isValid (params_id req))
  then ret (Send 400 "Invalid patient ID")
  else
    patient <- Patient_findById (params_id req) ;;
    match patient with
    | None => ret (Send 404 "Patient not found")
    | Some patient => ret (Render (patientView patient))
    end.

(** GET /doctor/dashboard, after [isAuth] and [isDoctor]. *)
Definition get_doctor_dashboard (req : Request) : M Response :=
  try_catch
    (u <- req_user req ;;
     patientId <- match User.patient u with
                  | Some id => ret id
                  | None => throw (TypeError "Cannot read properties of undefined (reading '_id')")
                  end ;;
     patient <- Patient_findById_oid patientId ;;
     match patient with
     | None => ret (Send 404 "Patient not found")
     | Some patient =>
         patient <- match Patient.assignedDoctor patient with
                    | None =>
                        let patient :=
                          Patient.set_assignedDoctor (User._id u) patient in
                        Patient_save patient ;;;
                        ret patient
                    | Some _ => ret patient
                    end ;;
         medicines <- Medicine_find_in (Patient.medicines patient) ;;
         ret (Render (doctorView patient medicines))
     end)
    (fun error => ret (Send 500 "Server Error")).

(** GET /patient/:id/medicines, after [isAuth]; no try/catch. *)
Definition get_patient_medicines (req : Request) : M Response :=
  patient <- Patient_findById (params_id req) ;;
  patient_id <- match patient with
                | Some p => ret (Patient._id p)
                | None => throw (TypeError "Cannot read properties of null (reading '_id')")
                end ;;
  medicines <- Medicine_find_patient patient_id ;;
  match patient with
  | None => ret (Send 404 "Patient not found")
  | Some patient => ret (Render (medicineView patient medicines))
  end.

(** POST /doctor/patient/:id/medicines. *)
Definition post_doctor_patient_medicines (req : Request) (f : MedicineForm.t)
  : M Response :=
  try_catch
    (newMed <- new_Medicine f (params_id req) ;;
     Medicine_save_new newMed ;;;
     ret (Redirect ("/doctor/patient/" ++ params_id req ++ "/medicines")))
    (fun error => ret (Send 500 "Server Error")).

(** POST /doctor/medicine/:id/update.  The redirect target is written in
    single quotes in the source, so it is this exact text. *)
Definition post_doctor_medicine_update (req : Request) (f : MedicineForm.t)
  : M Response :=
  try_catch
    (med <- Medicine_findById (params_id req) ;;
     match med with
     | None => throw (TypeError "Cannot set properties of null (setting 'name')")
     | Some med =>
         Medicine_save
           (Medicine_assign f (Medicine._id med) (Medicine.patient med)) ;;;
         ret (Redirect "/doctor/patient/${req.params.id}/medicines")
     end)
    (fun error => ret (Send 500 "Failure to update Medicine")).

(** POST /doctor/medicine/:id/delete. *)
Definition post_doctor_medicine_delete (req : Request) : M Response :=
  try_catch
    (med <- Medicine_findByIdAndDelete (params_id req) ;;
     ret (Redirect "/doctor/patient/${req.params.id}/medicines"))
    (fun err => ret (Send 500 " Failure to Delete medicines")).

(** The ownership test
    [String(req.user.patient) !== String(patient._id)]. *)
Definition not_owner (u : User.t) (patient : Patient.t) : bool :=
  negb (String_ (User.patient u) =? String_ (Some (Patient._id patient))).

(** GET /doctor/patient/:id/prescriptions. *)
Definition get_doctor_patient_prescriptions (req : Request) : M Response :=
  try_catch
    (if negb (ObjectId_isValid (params_id req))
     then ret (send "InValid patient Id")
     else
       patient <- Patient_findById (params_id req) ;;
       match patient with
       | None => ret (send "Patient not found")
       | Some patient =>
           u <- req_user req ;;
           if not_owner u patient then ret (send "Unauthorized")
           else
             prescriptions <- Prescription_find (Patient._id patient) ;;
             ret (Render (doctorPrescriptions patient
                            (sort_date_desc prescriptions)))
       end)
    (fun error => ret (Send 500 "Error loading Precriptions")).

(** POST /doctor/patient/:id/prescriptions. *)
Definition post_doctor_patient_prescriptions (req : Request)
    (f : PrescriptionForm.t) : M Response :=
  try_catch
    (u <- req_user req ;;
     newPrescription <- new_Prescription (params_id req) (User._id u) f ;;
     Prescription_save newPrescription ;;;
     ret (Redirect ("/doctor/patient/" ++ params_id req ++ "/prescriptions")))
    (fun err => ret (Send 500 "Failed to save Prescription")).

(** GET /doctor/patient/:id/ai-insights. *)
Definition get_doctor_patient_ai_insights (req : Request) : M Response :=
  try_catch
    (patient <- Patient_findById (params_id req) ;;
     match patient with
     | None => ret (send "Patient not found")
     | Some patient =>
         u <- req_user req ;;
         if not_owner u patient then ret (send "Unauthorized")
         else
           prescriptions <- Prescription_find (Patient._id patient) ;;
           ret (Render (aiInsights patient (aiLogic patient prescriptions)))
     end)
    (fun err => ret (Send 500 "AI analysis failed")).

(** The routes: each handler behind the middleware app.js registers
    before it. *)
Definition route_get_patient (req : Request) : M Response :=
  isAuth req (get_patient req).

Definition route_get_doctor_dashboard (req : Request) : M Response :=
  isAuth req (isDoctor req (get_doctor_dashboard req)).

Definition route_get_patient_medicines (req : Request) : M Response :=
  isAuth req (get_patient_medicines req).

Definition route_post_doctor_patient_medicines (req : Request)
    (f : MedicineForm.t) : M Response :=
  isAuth req (isDoctor req (post_doctor_patient_medicines req f)).

Definition route_post_doctor_medicine_update (req : Request)
    (f : MedicineForm.t) : M Response :=
  isAuth req (isDoctor req (post_doctor_medicine_update req f)).

Definition route_post_doctor_medicine_delete (req : Request) : M Response :=
  isAuth req (isDoctor req (post_doctor_medicine_delete req)).

Definition route_get_doctor_patient_prescriptions (req : Request)
  : M Response :=
  isAuth req (isDoctor req (get_doctor_patient_prescriptions req)).

Definition route_post_doctor_patient_prescriptions (req : Request)
    (f : PrescriptionForm.t) : M Response :=
  isAuth req (isDoctor req (post_doctor_patient_prescriptions req f)).

Definition route_get_doctor_patient_ai_insights (req : Request)
  : M Response :=
  isAuth req (isDoctor req (get_doctor_patient_ai_insights req)).

End Routes.

(* ================================================================== *)
(** * Sequences of requests *)
(* ================================================================== *)

(** One request to one of the routes above. *)
Inductive Action :=
| PostSignup (f : SignupForm.t)
| GetPatient (req : Request)
| GetDoctorDashboard (req : Request)
| GetPatientMedicines (req : Request)
| PostMedicine (req : Request) (f : MedicineForm.t)
| PostMedicineUpdate (req : Request) (f : MedicineForm.t)
| PostMedicineDelete (req : Request)
| GetPrescriptions (req : Request)
| PostPrescription (req : Request) (f : PrescriptionForm.t)
| GetAiInsights (req : Request).

Section Serve.
Context `{P : Platform}.

Definition serve (a : Action) : M Response :=
  match a with
  | PostSignup f => post_signup f
  | GetPatient req => route_get_patient req
  | GetDoctorDashboard req => route_get_doctor_dashboard req
  | GetPatientMedicines req => route_get_patient_medicines req
  | PostMedicine req f => route_post_doctor_patient_medicines req f
  | PostMedicineUpdate req f => route_post_doctor_medicine_update req f
  | PostMedicineDelete req => route_post_doctor_medicine_delete req
  | GetPrescriptions req => route_get_doctor_patient_prescriptions req
  | PostPrescription req f => route_post_doctor_patient_prescriptions req f
  | GetAiInsights req => route_get_doctor_patient_ai_insights req
  end.

(** The world after a sequence of requests, served one after the
    other. *)
Fixpoint serve_all (l : list Action) (w : World) : World :=
  match l with
  | [] => w
  | a :: rest => serve_all rest (snd (serve a w))
  end.

End Serve.

(** No stored patient lists [id] in its medicines array. *)
Definition unlisted (id : ObjectId) (w : World) : Prop :=
  forall p, In p (DB.patients (db w)) -> ~ In id (Patient.medicines p).

(* ================================================================== *)
(** * One platform and one store, to run the handlers on *)
(* ================================================================== *)

Module Sample.

Definition isHexDigit (c : ascii) : bool :=
  match Js.digitValue c with
  | Some d => (d <? 16)%Z
  | None => false
  end.

Fixpoint allHex (s : string) : bool :=
  match s with
  | EmptyString => true
  | String c rest => isHexDigit c && allHex rest
  end.

Definition lowerChar (c : ascii) : ascii :=
  let n := nat_of_ascii c in
  if ((65 <=? n) && (n <=? 90))%nat then ascii_of_nat (n + 32) else c.

Fixpoint toLowerCase (s : string) : string :=
  match s with
  | EmptyString => EmptyString
  | String c rest => String (lowerChar c) (toLowerCase rest)
  end.

(** The constructor of BSON 6: 24 hexadecimal digits. *)
Definition fromString (s : string) : option ObjectId :=
  if (String.length s =? 24)%nat && allHex s
  then Some (toLowerCase s) else None.

Definition hexChar (d : N) : ascii :=
  if (d <? 10)%N then ascii_of_N (48 + d) else ascii_of_N (87 + d).

Fixpoint hexPad (width : nat) (n : N) (acc : string) : string :=
  match width with
  | O => acc
  | S w => hexPad w (n / 16)%N (String (hexChar (n mod 16)%N) acc)
  end.

(** Generated identifiers: a fixed 16-digit prefix and a counter. *)
Definition generate (n : nat) : ObjectId :=
  "65f0c0de00000000" ++ hexPad 8 (N.of_nat n) "".

Fixpoint allDigits (s : string) : bool :=
  match s with
  | EmptyString => true
  | String c rest =>
      (let n := nat_of_ascii c in (48 <=? n) && (n <=? 57))%nat
      && allDigits rest
  end.

(** The double of a decimal numeral, digit by digit. *)
Definition digitFloat (c : ascii) : float :=
  match Js.digitValue c with
  | Some 1%Z => 1 | Some 2%Z => 2 | Some 3%Z => 3 | Some 4%Z => 4
  | Some 5%Z => 5 | Some 6%Z => 6 | Some 7%Z => 7 | Some 8%Z => 8
  | Some 9%Z => 9 | _ => 0
  end%float.

Fixpoint decimalFloat (s : string) (acc : float) : float :=
  match s with
  | EmptyString => acc
  | String c rest => decimalFloat rest (acc * 10 + digitFloat c)%float
  end.

(** The Number cast on the empty text and on decimal numerals; other
    texts are refused. *)
Definition castNumber (s : string) : option Number :=
  if s =? "" then Some None
  else if allDigits s then Some (Some (decimalFloat s 0%float))
  else None.

(** Modelled from the spec: the validators of models/User.js, which is
    not among the sources; a role is doctor or patient. *)
Definition validate (u : User.t) : bool :=
  (User.role u =? "doctor") || (User.role u =? "patient").

#[global] Instance platform : Platform := {
  ObjectId_fromString := fromString;
  ObjectId_generate := generate;
  Number_cast := castNumber;
  hashPassword := fun s => "$2b$" ++ s;
  User_validate := validate }.

Definition pid1 : ObjectId := "65f0aaaa0000000000000001".
Definition pid2 : ObjectId := "65f0aaaa0000000000000002".
Definition uid1 : ObjectId := "65f0bbbb0000000000000001".
Definition uid2 : ObjectId := "65f0bbbb0000000000000002".
Definition mid1 : ObjectId := "65f0cccc0000000000000001".

(** Asha: bp 150/90, sugar 150, not yet assigned to a doctor. *)
Definition asha : Patient.t :=
  Patient.mk pid1 "PAT-ASHA01" (Some "Asha") None None None None None
    [mid1] [] []
    (Some (Vitals.mk (Some "150/90") (Some "150") None None)) None None.

(** Ravi: bp 120/80, sugar 90, assigned to doctor 2. *)
Definition ravi : Patient.t :=
  Patient.mk pid2 "PAT-RAVI02" (Some "Ravi") None None None None None
    [] [] []
    (Some (Vitals.mk (Some "120/80") (Some "90") None None))
    (Some uid2) None.

(** A patient whose only stored data are the two vitals. *)
Definition patient_with (bp sugar : option string) : Patient.t :=
  Patient.mk "65f0aaaa00000000000000ff" "PAT-TEST00" None None None None None
    None [] [] [] (Some (Vitals.mk bp sugar None None)) None None.

Definition doctor1 : User.t :=
  User.mk uid1 "doc1@clinic.example" "$2b$pw1" "doctor" (Some pid1).

Definition doctor2 : User.t :=
  User.mk uid2 "doc2@clinic.example" "$2b$pw2" "doctor" (Some pid2).

Definition med1 : Medicine.t :=
  Medicine.mk mid1 (Some "Amlodipine") (Some 10%float) (Some "daily")
    (Some "hypertension") (Some pid1).

Definition rx (n : string) (d : Z) : Prescription.t :=
  Prescription.mk n (Some pid1) (Some uid1) [] (Some "review") d.

Definition store : DB.t :=
  DB.mk [doctor1; doctor2] [asha; ravi] [med1]
    [rx "65f0dddd0000000000000001" 1; rx "65f0dddd0000000000000002" 2;
     rx "65f0dddd0000000000000003" 3; rx "65f0dddd0000000000000004" 4].

Definition world : World := mkWorld store 0 1700000000000 [] [].

Definition medForm : MedicineForm.t :=
  MedicineForm.mk "Metformin" "30" "twice daily" "diabetes".

Definition dupEmail : SignupForm.t :=
  SignupForm.mk "doc1@clinic.example" "secret" "patient" "Mina" "PAT-MINA03".

Definition dupCode : SignupForm.t :=
  SignupForm.mk "mina@clinic.example" "secret" "patient" "Mina" "PAT-ASHA01".

Definition noPatient : SignupForm.t :=
  SignupForm.mk "doc3@clinic.example" "secret" "doctor" "Dr. Rao" "PAT-NONE00".

Definition rxForm : PrescriptionForm.t :=
  PrescriptionForm.mk [RxLineForm.mk "Metformin" "2" "30"] "after meals".

End Sample.

(* ================================================================== *)
(** * The signup failures in the words of the specification *)
(* ================================================================== *)

(** The error names of section 7 and the flash message that carries each
    to the client. *)
Module SignupError.
Inductive t := DuplicateEmail | DuplicatePatientCode | PatientNotFound.

Definition message (e : t) : string :=
  match e with
  | DuplicateEmail => "Email already registered"
  | DuplicatePatientCode => "Patient ID already exists"
  | PatientNotFound => "Patient ID not found"
  end.
End SignupError.

Module SignupSpec.

Definition email_registered (d : DB.t) (email : string) : bool :=
  existsb (fun u => User.email u =? email) (DB.users d).

Definition code_exists (d : DB.t) (patientCode : string) : bool :=
  existsb (fun p => Patient.patientCode p =? patientCode) (DB.patients d).

(** Section 4.3, steps 1 to 3: which failure, if any, a signup meets. *)
Definition failure (d : DB.t) (f : SignupForm.t) : option SignupError.t :=
  if email_registered d (SignupForm.email f)
  then Some SignupError.DuplicateEmail
  else if (SignupForm.role f =? "patient")
          && code_exists d (SignupForm.patientId f)
  then Some SignupError.DuplicatePatientCode
  else if (SignupForm.role f =? "doctor")
          && negb (code_exists d (SignupForm.patientId f))
  then Some SignupError.PatientNotFound
  else None.

End SignupSpec.

(** The sugar vital is absent (undefined or empty) or does not parse. *)
Definition sugar_absent_or_unparsable (patient : Patient.t) : Prop :=
  match vitals_sugar patient with
  | None => True
  | Some s => Js.parseInt s = None
  end.

(* ================================================================== *)
(** * Passport: the local strategy, the session and the login route *)
(* ================================================================== *)

(** [user.comparePassword(candidate)], a method of models/User.js, which
    is not among the sources: does the candidate match the stored
    hash. *)
Class Passwords := {
  comparePassword : string -> string -> bool }.

(** What the verify callback hands to [done]: the user, or [false] with a
    message. *)
Inductive Verified :=
| Accept (u : User.t)
| Reject (message : string).

(** [req.session.passport.user]: the serialized user, if any. *)
Definition Session := option string.

Section Passport.
Context `{P : Platform} `{Pw : Passwords}.

(** The verify callback of the LocalStrategy (config/passport.js 7-19);
    an error caught is handed to [done] and travels on. *)
Definition localStrategy (email password : string) : M Verified :=
  try_catch
    (u <- User_findOne email ;;
     match u with
     | None => ret (Reject "Email not registered")
     | Some u =>
         if comparePassword password (User.password u)
         then ret (Accept u)
         else ret (Reject "Incorrect password")
     end)
    (fun err => throw err).

(** [passport.serializeUser]: [user.id], the text of [_id]. *)
Definition serializeUser (u : User.t) : string := User._id u.

(** [User.findById(id)] on the text kept in the session.  It is made by
    the session middleware, before any handler, and is not in the log of
    the handlers' calls. *)
Definition User_findById (id : string) : M (option User.t) :=
  oid <- castObjectId "_id" id ;;
  d <- get_db ;;
  ret (find (fun u => User._id u =? oid) (DB.users d)).

(** [passport.deserializeUser]. *)
Definition deserializeUser (id : string) : M (option User.t) :=
  User_findById id.

(** [passport.session()]: the request gets the user the session names;
    a session whose user no longer resolves is emptied. *)
Definition passport_session (s : Session) : M (option User.t * Session) :=
  match s with
  | None => ret (None, None)
  | Some id =>
      u <- deserializeUser id ;;
      match u with
      | Some u => ret (Some u, Some id)
      | None => ret (None, None)
      end
  end.

(** [passport.authenticate('local', ...)] up to the verify callback: the
    strategy refuses an empty email or password itself. *)
Definition authenticate_local (email password : string) : M Verified :=
  if (email =? "") || (password =? "")
  then ret (Reject "Missing credentials")
  else localStrategy email password.

(** The handler of POST /login (app.js 146-158), run once the user is
    logged in. *)
Definition login_redirect (u : User.t) : Response :=
  if User.role u =? "doctor" then Redirect "/doctor/dashboard"
  else if User.role u =? "patient"
  then Redirect ("/patient/" ++ String_ (User.patient u))
  else Redirect "/dashboard".

(** POST /login with [failureRedirect: '/login'] and
    [failureFlash: true]. *)
Definition post_login (email password : string) (s : Session)
  : M (Response * Session) :=
  v <- authenticate_local email password ;;
  match v with
  | Reject message =>
      req_flash "error" message ;;;
      ret (Redirect "/login", s)
  | Accept u => ret (login_redirect u, Some (serializeUser u))
  end.

(** GET /logout. *)
Definition get_logout (s : Session) : Response * Session :=
  (Redirect "/", None).

(** A route with a path id, behind [passport.session()]. *)
Definition with_session (s : Session) (id : string)
    (route : Request -> M Response) : M (Response * Session) :=
  us <- passport_session s ;;
  r <- route (mkRequest (fst us) id) ;;
  ret (r, snd us).

End Passport.

(* ================================================================== *)
(** * The doctor's view of a patient's medicines *)
(* ================================================================== *)

Section DoctorMedicines.
Context `{P : Platform}.

(** [.sort({ id: -1 })]: the order the database gives to documents
    sorted on a path named id, which the stored medicines do not have. *)
Variable sort_id_desc : list Medicine.t -> list Medicine.t.

(** GET /doctor/patient/:id/medicines (app.js 274-288). *)
Definition get_doctor_patient_medicines (req : Request) : M Response :=
  try_catch
    (patient <- Patient_findById (params_id req) ;;
     patient_id <- match patient with
                   | Some p => ret (Patient._id p)
                   | None => throw (TypeError "Cannot read properties of null (reading '_id')")
                   end ;;
     found <- Medicine_find_patient patient_id ;;
     let medicines := sort_id_desc found in
     match patient with
     | None => ret (Send 404 "Patient not found")
     | Some patient => ret (Render (medicineView patient medicines))
     end)
    (fun error => ret (Send 500 "Server Error")).

Definition route_get_doctor_patient_medicines (req : Request) : M Response :=
  isAuth req (isDoctor req (get_doctor_patient_medicines req)).

End DoctorMedicines.

(* ================================================================== *)
(** * The middleware before every route (app.js 80-84) *)
(* ================================================================== *)

(** [req.flash(kind)] with one argument: the pending messages of that
    kind, oldest first, which are thereby deleted; the messages of other
    kinds stay. *)
Definition take_flash (kind : string) : M (list string) :=
  fun w =>
    (Val (rev (map snd (filter (fun m => fst m =? kind) (flash w)))),
     mkWorld (db w) (oids w) (now w)
       (filter (fun m => negb (fst m =? kind)) (flash w)) (calls w)).

(** [res.locals] as the middleware fills it. *)
Record Locals := mkLocals {
  locals_user : option User.t;
  locals_message : list string }.

(** [res.locals.user = req.user || null],
    [res.locals.message = req.flash('error')], then [next()]: the route
    runs after the pending error messages have been taken. *)
Definition with_locals (req_user : option User.t) (next : M Response)
  : M (Locals * Response) :=
  message <- take_flash "error" ;;
  r <- next ;;
  ret (mkLocals req_user message, r).

(* ================================================================== *)
(** * Vocabulary of the further properties *)
(* ================================================================== *)

(** The request of an action on a doctor-only route. *)
Definition doctor_request (a : Action) : option Request :=
  match a with
  | GetDoctorDashboard req
  | PostMedicine req _
  | PostMedicineUpdate req _
  | PostMedicineDelete req
  | GetPrescriptions req
  | PostPrescription req _
  | GetAiInsights req => Some req
  | PostSignup _ | GetPatient _ | GetPatientMedicines _ => None
  end.

(** The actions that only read: the four GET routes with a path id. *)
Definition reads_only (a : Action) : bool :=
  match a with
  | GetPatient _ | GetPatientMedicines _ | GetPrescriptions _
  | GetAiInsights _ => true
  | _ => false
  end.

(** Newest first. *)
Definition newer_or_same (a b : Prescription.t) : Prop :=
  (Prescription.date b <= Prescription.date a)%Z.

(** [Prescription.find({ patient: id })] as a list. *)
Definition prescriptions_of (id : ObjectId) (d : DB.t)
  : list Prescription.t :=
  filter (fun r => match Prescription.patient r with
                   | Some q => q =? id
                   | None => false
                   end) (DB.prescriptions d).

(** [Medicine.find({ patient: id })] as a list. *)
Definition medicines_of (id : ObjectId) (d : DB.t) : list Medicine.t :=
  filter (fun m => match Medicine.patient m with
                   | Some q => q =? id
                   | None => false
                   end) (DB.medicines d).

(** The three tests of the scoring block on a patient. *)
Definition bp_high (patient : Patient.t) : bool :=
  Js.includes (Js.orElse (vitals_bp patient) "") "140"
  || Js.includes (Js.orElse (vitals_bp patient) "") "150".

Definition sugar_high (patient : Patient.t) : bool :=
  Js.gt (sugar_value patient) 140.

(** The stored patients have distinct identifiers and distinct codes, and
    none of the identifiers the driver is still to generate, up to the
    [n]-th, is in use. *)
Definition patients_distinct `{P : Platform} (n : nat) (w : World) : Prop :=
  NoDup (map Patient._id (DB.patients (db w)))
  /\ NoDup (map Patient.patientCode (DB.patients (db w)))
  /\ forall k, oids w <= k -> k < n ->
               ~ In (ObjectId_generate k)
                    (map Patient._id (DB.patients (db w))).

(** More platform and store to run on. *)
Module Demo.

(** The stored hash matches the candidate it was made from. *)
#[global] Instance passwords : Passwords := {
  comparePassword := fun candidate hash => hash =? ("$2b$" ++ candidate) }.

Definition patientUser : User.t :=
  User.mk "65f0bbbb0000000000000003" "asha@clinic.example" "$2b$pw3"
    "patient" (Some Sample.pid1).

(** A patient-role user without a patient reference. *)
Definition looseUser : User.t :=
  User.mk "65f0bbbb0000000000000004" "loose@clinic.example" "$2b$pw4"
    "patient" None.

Definition store : DB.t :=
  DB.mk [Sample.doctor1; Sample.doctor2; patientUser; looseUser]
    [Sample.asha; Sample.ravi] [Sample.med1]
    (DB.prescriptions Sample.store).

Definition world : World := mkWorld store 0 1700000000000 [] [].

Definition minaForm : SignupForm.t :=
  SignupForm.mk "mina@clinic.example" "secret" "patient" "Mina" "PAT-MINA03".

(** A platform whose User schema also requires a password. *)
Definition strictValidate (u : User.t) : bool :=
  Sample.validate u && negb (User.password u =? "").

Definition strict : Platform := {|
  ObjectId_fromString := Sample.fromString;
  ObjectId_generate := Sample.generate;
  Number_cast := Sample.castNumber;
  hashPassword := fun s => "$2b$" ++ s;
  User_validate := strictValidate |}.

End Demo.

(* ================================================================== *)
(** * Properties *)
(* ================================================================== *)

(** ** JavaScript helpers on concrete texts *)

Example parseInt_150 : Js.parseInt "150" = Some 150%Z.
Proof. reflexivity. Qed.

Example parseInt_trailing : Js.parseInt " -42px" = Some (-42)%Z.
Proof. reflexivity. Qed.

Example parseInt_hex : Js.parseInt "0x1F" = Some 31%Z.
Proof. reflexivity. Qed.

Example parseInt_NaN : Js.parseInt "abc" = None.
Proof. reflexivity. Qed.

Example includes_150 : Js.includes "150/90" "150" = true.
Proof. reflexivity. Qed.

Example includes_none : Js.includes "120/80" "140" = false.
Proof. reflexivity. Qed.

(** ** Risk scoring *)

(** The block reads the patient and the prescriptions only through the
    bp text, the sugar text and the number of prescriptions, and is the
    function the specification describes. *)
Lemma aiLogic_riskScoring (patient : Patient.t)
    (prescriptions : list Prescription.t) :
  aiLogic patient prescriptions =
  Spec.riskScoring (Js.orElse (vitals_bp patient) "")
                   (Js.orElse (vitals_sugar patient) "0")
                   (List.length prescriptions).
Proof.
  unfold aiLogic, Spec.riskScoring, Spec.risks, Spec.suggestions, Spec.score,
    Spec.highBP, Spec.highSugar, Spec.longTerm, sugar_value.
  destruct (Js.includes (Js.orElse (vitals_bp patient) "") "140"
            || Js.includes (Js.orElse (vitals_bp patient) "") "150");
    destruct (Js.gt (Js.parseInt (Js.orElse (vitals_sugar patient) "0")) 140);
    destruct (3 <? List.length prescriptions)%nat;
    reflexivity.
Qed.

(** C1: the scoring block of the AI-insights handler equals, for every
    patient and every list of prescriptions, the function of (bp text,
    sugar text, prescription count) that section 4.8 of the specification
    describes: start at 100; bp containing 140 or 150 adds High Blood
    Pressure and subtracts 20; sugar above 140 adds High Blood Sugar and
    subtracts 20; more than 3 prescriptions adds Long-term medication
    dependency and subtracts 10; empty lists take their default entry.
    For bp 150/90, sugar 150 and 4 prescriptions the result is score 50
    with the three risks and the three suggestions; for bp 120/80, sugar
    90 and no prescription it is score 100 with the two default
    entries. *)
Theorem C1_risk_scoring :
  (forall patient prescriptions,
      aiLogic patient prescriptions =
      Spec.riskScoring (Js.orElse (vitals_bp patient) "")
                       (Js.orElse (vitals_sugar patient) "0")
                       (List.length prescriptions))
  /\ aiLogic (Sample.patient_with (Some "150/90") (Some "150"))
             (DB.prescriptions Sample.store)
     = mkInsight 50
         ["High Blood Pressure"; "High Blood Sugar";
          "Long-term medication dependency"]
         ["Lifestyle improvement recommended"; "Reduce salt intake";
          "Avoid sugar and carbs"]
  /\ aiLogic (Sample.patient_with (Some "120/80") (Some "90")) []
     = mkInsight 100 ["No major risks detected"]
         ["Keep following current treatment"]
  /\ Spec.riskScoring "150/90" "150" 4
     = mkInsight 50
         ["High Blood Pressure"; "High Blood Sugar";
          "Long-term medication dependency"]
         ["Lifestyle improvement recommended"; "Reduce salt intake";
          "Avoid sugar and carbs"]
  /\ Spec.riskScoring "120/80" "90" 0
     = mkInsight 100 ["No major risks detected"]
         ["Keep following current treatment"].
Proof.
  split; [exact aiLogic_riskScoring | repeat split; reflexivity].
Qed.

(** ** The sugar vital *)

Lemma aiLogic_sugar (p q : Patient.t) (rx : list Prescription.t) :
  vitals_bp p = vitals_bp q ->
  Js.gt (sugar_value p) 140 = Js.gt (sugar_value q) 140 ->
  aiLogic p rx = aiLogic q rx.
Proof.
  intros Hbp Hgt. unfold aiLogic. rewrite Hbp, Hgt. reflexivity.
Qed.

Lemma sugar_value_cases (p : Patient.t) :
  sugar_absent_or_unparsable p ->
  sugar_value p = match vitals_sugar p with
                  | None | Some EmptyString => Some 0%Z
                  | Some _ => None
                  end.
Proof.
  unfold sugar_absent_or_unparsable, sugar_value.
  destruct (vitals_sugar p) as [s|]; [|reflexivity].
  destruct s as [|c s]; [reflexivity|].
  intros H. exact H.
Qed.

(** C5 as the specification words it fails: the text abc is unparsable
    and the value the handler holds for it is NaN, not 0. *)
Lemma C5_counterexample :
  sugar_absent_or_unparsable (Sample.patient_with (Some "120/80") (Some "abc"))
  /\ sugar_value (Sample.patient_with (Some "120/80") (Some "abc"))
     <> Some 0%Z.
Proof. split; [reflexivity | discriminate]. Qed.

(** C5 (amended): the sugar vital is parsed with parseInt.  When it is
    absent (undefined or the empty text) the value used is 0; when it is
    present and unparsable the value used is NaN, which like 0 fails the
    test sugar > 140.  So for every absent or unparsable sugar text the
    scoring output equals the output for a patient with the same bp whose
    sugar value is 0. *)
Theorem C5_sugar_absent_or_unparsable
    (p p0 : Patient.t) (rx : list Prescription.t) :
  sugar_absent_or_unparsable p ->
  vitals_bp p0 = vitals_bp p ->
  sugar_value p0 = Some 0%Z ->
  sugar_value p = match vitals_sugar p with
                  | None | Some EmptyString => Some 0%Z
                  | Some _ => None
                  end
  /\ aiLogic p rx = aiLogic p0 rx.
Proof.
  intros Hs Hbp H0.
  pose proof (sugar_value_cases p Hs) as Hv.
  split; [exact Hv|].
  apply aiLogic_sugar; [symmetry; exact Hbp|].
  rewrite Hv, H0.
  destruct (vitals_sugar p) as [[|c s]|]; reflexivity.
Qed.

Lemma C5_sugar_witness :
  sugar_value (Sample.patient_with (Some "150/90") (Some "abc")) = None
  /\ aiLogic (Sample.patient_with (Some "150/90") (Some "abc")) []
     = aiLogic (Sample.patient_with (Some "150/90") (Some "0")) [].
Proof.
  apply (C5_sugar_absent_or_unparsable
           (Sample.patient_with (Some "150/90") (Some "abc"))
           (Sample.patient_with (Some "150/90") (Some "0")) []);
    reflexivity.
Defined.

(** ** Lists and the monad *)

Lemma existsb_find {A} (f : A -> bool) (l : list A) :
  existsb f l = match find f l with Some _ => true | None => false end.
Proof.
  induction l as [|x l IH]; simpl; [reflexivity|].
  destruct (f x); [reflexivity | exact IH].
Qed.

Lemma find_id_some (l : list Patient.t) (id : ObjectId) (p : Patient.t) :
  find (fun q => Patient._id q =? id) l = Some p ->
  In p l /\ Patient._id p = id.
Proof.
  intros H. apply find_some in H. destruct H as [Hin Heq].
  split; [exact Hin | apply String.eqb_eq; exact Heq].
Qed.

Lemma find_id_exists (l : list Patient.t) (id : ObjectId) :
  (exists p, In p l /\ Patient._id p = id) ->
  exists q, find (fun q => Patient._id q =? id) l = Some q.
Proof.
  intros [p [Hin Hid]].
  destruct (find (fun q => Patient._id q =? id) l) as [q|] eqn:E.
  - exists q. reflexivity.
  - exfalso. pose proof (find_none _ _ E p Hin) as Hn. simpl in Hn.
    rewrite Hid, String.eqb_refl in Hn. discriminate.
Qed.

(** Unfolding one step of a handler. *)
Ltac step :=
  unfold bind, ret, throw, try_catch, get_db, modify_db, get_now, called,
    req_flash, new_ObjectId, castObjectId, req_user; simpl.

(** ** Signup *)

Lemma email_registered_iff (d : DB.t) (email : string) :
  SignupSpec.email_registered d email = true
  <-> exists u, In u (DB.users d) /\ User.email u = email.
Proof.
  unfold SignupSpec.email_registered. rewrite existsb_exists.
  split; intros [u [Hin H]]; exists u; (split; [exact Hin|]);
    apply String.eqb_eq; exact H.
Qed.

Lemma code_exists_iff (d : DB.t) (patientCode : string) :
  SignupSpec.code_exists d patientCode = true
  <-> exists p, In p (DB.patients d) /\ Patient.patientCode p = patientCode.
Proof.
  unfold SignupSpec.code_exists. rewrite existsb_exists.
  split; intros [q [Hin H]]; exists q; (split; [exact Hin|]);
    apply String.eqb_eq; exact H.
Qed.

(** The three failures, in the order section 4.3 tests them. *)
Lemma signup_failure_cases (d : DB.t) (f : SignupForm.t) :
  ((exists u, In u (DB.users d) /\ User.email u = SignupForm.email f) ->
   SignupSpec.failure d f = Some SignupError.DuplicateEmail)
  /\ (~ (exists u, In u (DB.users d) /\ User.email u = SignupForm.email f) ->
      SignupForm.role f = "patient" ->
      (exists p, In p (DB.patients d)
                 /\ Patient.patientCode p = SignupForm.patientId f) ->
      SignupSpec.failure d f = Some SignupError.DuplicatePatientCode)
  /\ (~ (exists u, In u (DB.users d) /\ User.email u = SignupForm.email f) ->
      SignupForm.role f = "doctor" ->
      ~ (exists p, In p (DB.patients d)
                   /\ Patient.patientCode p = SignupForm.patientId f) ->
      SignupSpec.failure d f = Some SignupError.PatientNotFound).
Proof.
  unfold SignupSpec.failure.
  rewrite <- email_registered_iff, <- code_exists_iff.
  destruct (SignupSpec.email_registered d (SignupForm.email f));
    destruct (SignupSpec.code_exists d (SignupForm.patientId f));
    repeat split; intros; try congruence;
    repeat match goal with
           | H : SignupForm.role f = _ |- _ => rewrite H; clear H
           end; simpl; try reflexivity; exfalso; auto.
Qed.

(** C2: a signup whose email is already registered fails with
    DuplicateEmail; otherwise a patient-role signup whose patientId is the
    patientCode of an existing Patient fails with DuplicatePatientCode;
    otherwise a doctor-role signup whose patientId is the patientCode of
    no Patient fails with PatientNotFound.  Each failure redirects to
    /signup with its flash message and leaves every collection as it was,
    so no User is created. *)
Theorem C2_signup_failures `{P : Platform}
    (f : SignupForm.t) (w : World) (e : SignupError.t) :
  SignupSpec.failure (db w) f = Some e ->
  fst (post_signup f w) = Val (Redirect "/signup")
  /\ flash (snd (post_signup f w))
     = ("error", SignupError.message e) :: flash w
  /\ db (snd (post_signup f w)) = db w
  /\ DB.users (db (snd (post_signup f w))) = DB.users (db w).
Proof.
  unfold SignupSpec.failure, SignupSpec.email_registered,
    SignupSpec.code_exists.
  rewrite !existsb_find.
  unfold post_signup, User_findOne, Patient_findOne. step.
  destruct (find _ (DB.users (db w))) as [u0|]; simpl.
  - intros H; inversion H; subst e; simpl. repeat split.
  - destruct (SignupForm.role f =? "patient") eqn:Hrole; simpl.
    + destruct (find _ (DB.patients (db w))) as [p0|]; simpl.
      * intros H; inversion H; subst e; simpl. repeat split.
      * apply String.eqb_eq in Hrole. rewrite Hrole. simpl. discriminate.
    + destruct (find _ (DB.patients (db w))) as [p0|]; simpl.
      * rewrite andb_false_r. discriminate.
      * destruct (SignupForm.role f =? "doctor"); simpl; [|discriminate].
        intros H; inversion H; subst e; simpl. repeat split.
Qed.

Lemma C2_signup_witness :
  fst (post_signup Sample.dupEmail Sample.world) = Val (Redirect "/signup")
  /\ flash (snd (post_signup Sample.dupEmail Sample.world))
     = [("error", "Email already registered")]
  /\ db (snd (post_signup Sample.dupEmail Sample.world)) = Sample.store
  /\ DB.users (db (snd (post_signup Sample.dupEmail Sample.world)))
     = [Sample.doctor1; Sample.doctor2].
Proof.
  apply (C2_signup_failures Sample.dupEmail Sample.world
           SignupError.DuplicateEmail).
  reflexivity.
Defined.

Example signup_duplicate_code :
  SignupSpec.failure Sample.store Sample.dupCode
  = Some SignupError.DuplicatePatientCode
  /\ post_signup Sample.dupCode Sample.world
     = (Val (Redirect "/signup"),
        mkWorld Sample.store 0 1700000000000
          [("error", "Patient ID already exists")]
          [Call.Patient_findOne; Call.User_findOne]).
Proof. split; reflexivity. Qed.

Example signup_patient_not_found :
  SignupSpec.failure Sample.store Sample.noPatient
  = Some SignupError.PatientNotFound
  /\ post_signup Sample.noPatient Sample.world
     = (Val (Redirect "/signup"),
        mkWorld Sample.store 0 1700000000000
          [("error", "Patient ID not found")]
          [Call.Patient_findOne; Call.User_findOne]).
Proof. split; reflexivity. Qed.

(** A signup that meets no failure creates the Patient, then the User
    with the hashed password. *)
Example signup_new_patient :
  post_signup
    (SignupForm.mk "mina@clinic.example" "secret" "patient" "Mina"
       "PAT-MINA03") Sample.world
  = (Val (Redirect "/login"),
     mkWorld
       (DB.mk
          [Sample.doctor1; Sample.doctor2;
           User.mk "65f0c0de0000000000000001" "mina@clinic.example"
             "$2b$secret" "patient" (Some "65f0c0de0000000000000000")]
          [Sample.asha; Sample.ravi;
           Patient.mk "65f0c0de0000000000000000" "PAT-MINA03" (Some "Mina")
             None None None None None [] [] [] None None None]
          [Sample.med1] (DB.prescriptions Sample.store))
       2 1700000000000 []
       [Call.User_save; Call.Patient_create; Call.Patient_findOne;
        Call.User_findOne]).
Proof. reflexivity. Qed.

(** ** The ownership check *)

Lemma not_owner_true (u : User.t) (patient : Patient.t) :
  String_ (User.patient u) <> Patient._id patient ->
  not_owner u patient = true.
Proof.
  intros H. unfold not_owner. simpl.
  destruct (String_ (User.patient u) =? Patient._id patient) eqn:E;
    [|reflexivity].
  apply String.eqb_eq in E. contradiction.
Qed.

(** C3: a doctor asks for the prescriptions list or for the AI insights
    of an existing patient whose id differs from the doctor's
    assigned-patient reference: both endpoints answer Unauthorized, render
    no view, and leave the store as it was. *)
Theorem C3_mismatch_unauthorized `{P : Platform}
    (u : User.t) (id : string) (oid : ObjectId) (w : World) :
  User.role u = "doctor" ->
  ObjectId_fromString id = Some oid ->
  (exists p, In p (DB.patients (db w)) /\ Patient._id p = oid) ->
  String_ (User.patient u) <> oid ->
  (fst (route_get_doctor_patient_prescriptions (mkRequest (Some u) id) w)
   = Val (Send 200 "Unauthorized")
   /\ db (snd (route_get_doctor_patient_prescriptions
                 (mkRequest (Some u) id) w)) = db w)
  /\ (fst (route_get_doctor_patient_ai_insights (mkRequest (Some u) id) w)
      = Val (Send 200 "Unauthorized")
      /\ db (snd (route_get_doctor_patient_ai_insights
                    (mkRequest (Some u) id) w)) = db w).
Proof.
  intros Hrole Hid Hex Hne.
  destruct (find_id_exists _ _ Hex) as [q Hq].
  destruct (find_id_some _ _ _ Hq) as [_ Hqid].
  assert (Hno : not_owner u q = true)
    by (apply not_owner_true; rewrite Hqid; exact Hne).
  unfold route_get_doctor_patient_prescriptions,
    route_get_doctor_patient_ai_insights, isAuth, isDoctor,
    get_doctor_patient_prescriptions, get_doctor_patient_ai_insights,
    ObjectId_isValid, Patient_findById.
  simpl. rewrite Hrole. simpl. step. rewrite Hid. simpl.
  rewrite Hq. simpl. rewrite Hno. simpl.
  repeat split.
Qed.

Lemma C3_mismatch_witness :
  (fst (route_get_doctor_patient_prescriptions
          (mkRequest (Some Sample.doctor2) Sample.pid1) Sample.world)
   = Val (Send 200 "Unauthorized")
   /\ db (snd (route_get_doctor_patient_prescriptions
                 (mkRequest (Some Sample.doctor2) Sample.pid1) Sample.world))
      = Sample.store)
  /\ (fst (route_get_doctor_patient_ai_insights
             (mkRequest (Some Sample.doctor2) Sample.pid1) Sample.world)
      = Val (Send 200 "Unauthorized")
      /\ db (snd (route_get_doctor_patient_ai_insights
                    (mkRequest (Some Sample.doctor2) Sample.pid1)
                    Sample.world))
         = Sample.store).
Proof.
  apply (C3_mismatch_unauthorized Sample.doctor2 Sample.pid1 Sample.pid1
           Sample.world).
  - reflexivity.
  - reflexivity.
  - exists Sample.asha. split; [left; reflexivity | reflexivity].
  - discriminate.
Defined.

(** The owner of the patient gets the views. *)
Example owner_sees_insights :
  fst (route_get_doctor_patient_ai_insights
         (mkRequest (Some Sample.doctor1) Sample.pid1) Sample.world)
  = Val (Render (aiInsights Sample.asha
      (mkInsight 50
         ["High Blood Pressure"; "High Blood Sugar";
          "Long-term medication dependency"]
         ["Lifestyle improvement recommended"; "Reduce salt intake";
          "Avoid sugar and carbs"]))).
Proof. reflexivity. Qed.

(** For the doctor of the patient the handler renders the result of the
    scoring block on the patient and on the patient's prescriptions, and
    writes nothing. *)
Lemma ai_insights_owner `{P : Platform}
    (u : User.t) (id : string) (patient : Patient.t) (w : World) :
  User.role u = "doctor" ->
  ObjectId_fromString id = Some (Patient._id patient) ->
  find (fun p => Patient._id p =? Patient._id patient) (DB.patients (db w))
  = Some patient ->
  User.patient u = Some (Patient._id patient) ->
  let prescriptions :=
    filter (fun r => match Prescription.patient r with
                     | Some q => q =? Patient._id patient
                     | None => false
                     end) (DB.prescriptions (db w)) in
  fst (route_get_doctor_patient_ai_insights (mkRequest (Some u) id) w)
  = Val (Render (aiInsights patient
           (Spec.riskScoring (Js.orElse (vitals_bp patient) "")
                             (Js.orElse (vitals_sugar patient) "0")
                             (List.length prescriptions))))
  /\ db (snd (route_get_doctor_patient_ai_insights (mkRequest (Some u) id) w))
     = db w.
Proof.
  intros Hrole Hid Hfind Hown.
  unfold route_get_doctor_patient_ai_insights, isAuth, isDoctor,
    get_doctor_patient_ai_insights, Patient_findById, Prescription_find,
    not_owner.
  simpl. rewrite Hrole. simpl. step.
  rewrite Hid. simpl. rewrite Hfind. simpl. rewrite Hown. simpl.
  rewrite String.eqb_refl. simpl.
  rewrite aiLogic_riskScoring. split; reflexivity.
Qed.

(** ** GET /patient/:id *)

(** C4 as the specification words it fails: the text undefined is not a
    well-formed identifier, and the response to it is the redirect to
    /dashboard, not a 400-class response. *)
Lemma C4_counterexample :
  ObjectId_isValid "undefined" = false
  /\ fst (route_get_patient (mkRequest (Some Sample.doctor1) "undefined")
            Sample.world) = Val (Redirect "/dashboard")
  /\ ~ (exists status body,
          400 <= status < 500
          /\ fst (route_get_patient
                    (mkRequest (Some Sample.doctor1) "undefined")
                    Sample.world) = Val (Send status body)).
Proof.
  split; [reflexivity | split; [reflexivity|]].
  intros [status [body [_ H]]]. discriminate H.
Qed.

(** C4 (amended): for every authenticated request to GET /patient/:id
    whose path id is not a well-formed identifier the handler makes no
    call on the store and changes nothing; the response is 400 Invalid
    patient ID, except for the empty id and the text undefined, which the
    handler's first guard redirects to /dashboard. *)
Theorem C4_invalid_id `{P : Platform} (req : Request) (w : World) :
  user req <> None ->
  ObjectId_isValid (params_id req) = false ->
  route_get_patient req w
  = (Val (if (params_id req =? "") || (params_id req =? "undefined")
          then Redirect "/dashboard"
          else Send 400 "Invalid patient ID"), w).
Proof.
  intros Hu Hinv. unfold route_get_patient, isAuth, get_patient.
  destruct (user req) as [u|]; [|contradiction].
  destruct ((params_id req =? "") || (params_id req =? "undefined"));
    [reflexivity|].
  rewrite Hinv. reflexivity.
Qed.

Lemma C4_invalid_id_witness :
  route_get_patient (mkRequest (Some Sample.doctor1) "12345") Sample.world
  = (Val (Send 400 "Invalid patient ID"), Sample.world).
Proof.
  apply (C4_invalid_id (mkRequest (Some Sample.doctor1) "12345")
           Sample.world).
  - discriminate.
  - reflexivity.
Defined.

(** ** The doctor dashboard *)

Lemma find_replace {A} (key : A -> string) (id : string) (l : list A)
    (x new : A) :
  find (fun q => key q =? id) l = Some x ->
  key new = id ->
  find (fun q => key q =? id)
       (map (fun q => if key q =? id then new else q) l) = Some new.
Proof.
  intros Hfind Hnew.
  induction l as [|y l IH]; simpl in *; [discriminate|].
  destruct (key y =? id) eqn:E.
  - rewrite Hnew, String.eqb_refl. reflexivity.
  - rewrite E. apply IH. exact Hfind.
Qed.

(** C7: on a dashboard visit of a doctor whose linked patient exists, if
    the patient's assignedDoctor is unset the handler saves the patient
    with assignedDoctor set to the current doctor's id: the stored
    patient has the same _id, patientCode, name, age, gender, bloodGroup,
    phone, hospital, medicines, schedules, notifications, vitals and
    image as before and assignedDoctor equal to the doctor's _id; the
    users, medicines, prescriptions and the other patients are as before,
    and a later lookup finds the patient so assigned.  If assignedDoctor
    is already set the handler makes no save and the store is left
    exactly as it was. *)
Theorem C7_dashboard_auto_assign `{P : Platform}
    (u : User.t) (id : string) (pid : ObjectId) (patient : Patient.t)
    (w : World) :
  User.role u = "doctor" ->
  User.patient u = Some pid ->
  find (fun p => Patient._id p =? pid) (DB.patients (db w)) = Some patient ->
  let medicines :=
    filter (fun m => existsb (String.eqb (Medicine._id m))
                             (Patient.medicines patient))
           (DB.medicines (db w)) in
  match Patient.assignedDoctor patient with
  | None =>
      let assigned :=
        Patient.mk (Patient._id patient) (Patient.patientCode patient)
          (Patient.name patient) (Patient.age patient)
          (Patient.gender patient) (Patient.bloodGroup patient)
          (Patient.phone patient) (Patient.hospital patient)
          (Patient.medicines patient) (Patient.schedules patient)
          (Patient.notifications patient) (Patient.vitals patient)
          (Some (User._id u)) (Patient.image patient) in
      route_get_doctor_dashboard (mkRequest (Some u) id) w
      = (Val (Render (doctorView assigned medicines)),
         mkWorld
           (DB.mk (DB.users (db w))
              (map (fun q => if Patient._id q =? pid then assigned else q)
                   (DB.patients (db w)))
              (DB.medicines (db w)) (DB.prescriptions (db w)))
           (oids w) (now w) (flash w)
           (Call.Medicine_find :: Call.Patient_save
              :: Call.Patient_findById :: calls w))
      /\ find (fun p => Patient._id p =? pid)
              (DB.patients
                 (db (snd (route_get_doctor_dashboard
                             (mkRequest (Some u) id) w))))
         = Some assigned
      /\ option_map Patient.assignedDoctor
           (find (fun p => Patient._id p =? pid)
                 (DB.patients
                    (db (snd (route_get_doctor_dashboard
                                (mkRequest (Some u) id) w)))))
         = Some (Some (User._id u))
      /\ (forall q, In q (DB.patients (db w)) -> Patient._id q <> pid ->
                    In q (DB.patients
                            (db (snd (route_get_doctor_dashboard
                                        (mkRequest (Some u) id) w)))))
  | Some _ =>
      route_get_doctor_dashboard (mkRequest (Some u) id) w
      = (Val (Render (doctorView patient medicines)),
         mkWorld (db w) (oids w) (now w) (flash w)
           (Call.Medicine_find :: Call.Patient_findById :: calls w))
  end.
Proof.
  intros Hrole Hpat Hfind.
  destruct (find_id_some _ _ _ Hfind) as [_ Hid]. subst pid.
  unfold route_get_doctor_dashboard, isAuth, isDoctor, get_doctor_dashboard,
    Patient_findById_oid, Patient_save, Medicine_find_in.
  simpl. rewrite Hrole. simpl. step. rewrite Hpat. simpl.
  rewrite Hfind. simpl.
  destruct (Patient.assignedDoctor patient) as [d|] eqn:Hd; simpl.
  - reflexivity.
  - set (assigned :=
           Patient.mk (Patient._id patient) (Patient.patientCode patient)
             (Patient.name patient) (Patient.age patient)
             (Patient.gender patient) (Patient.bloodGroup patient)
             (Patient.phone patient) (Patient.hospital patient)
             (Patient.medicines patient) (Patient.schedules patient)
             (Patient.notifications patient) (Patient.vitals patient)
             (Some (User._id u)) (Patient.image patient)).
    assert (Hafter :
      find (fun p => Patient._id p =? Patient._id patient)
           (map (fun q => if Patient._id q =? Patient._id patient
                          then assigned else q)
                (DB.patients (db w))) = Some assigned).
    { apply (find_replace Patient._id (Patient._id patient) _ patient);
        [exact Hfind|reflexivity]. }
    split; [reflexivity|]. split; [exact Hafter|].
    split; [change (option_map Patient.assignedDoctor
                      (find (fun p => Patient._id p =? Patient._id patient)
                         (map (fun q => if Patient._id q =? Patient._id patient
                                        then assigned else q)
                              (DB.patients (db w))))
                    = Some (Some (User._id u)));
            rewrite Hafter; reflexivity|].
    intros q Hq Hne.
    change (In q (map (fun q => if Patient._id q =? Patient._id patient
                                then assigned else q)
                      (DB.patients (db w)))).
    apply in_map_iff. exists q. split; [|exact Hq].
    apply String.eqb_neq in Hne. rewrite Hne. reflexivity.
Qed.

Lemma C7_dashboard_witness :
  route_get_doctor_dashboard (mkRequest (Some Sample.doctor1) "") Sample.world
  = (Val (Render (doctorView
            (Patient.mk "65f0aaaa0000000000000001" "PAT-ASHA01" (Some "Asha")
               None None None None None ["65f0cccc0000000000000001"] [] []
               (Some (Vitals.mk (Some "150/90") (Some "150") None None))
               (Some "65f0bbbb0000000000000001") None)
            [Sample.med1])),
     mkWorld
       (DB.mk [Sample.doctor1; Sample.doctor2]
          [Patient.mk "65f0aaaa0000000000000001" "PAT-ASHA01" (Some "Asha")
             None None None None None ["65f0cccc0000000000000001"] [] []
             (Some (Vitals.mk (Some "150/90") (Some "150") None None))
             (Some "65f0bbbb0000000000000001") None;
           Sample.ravi]
          [Sample.med1] (DB.prescriptions Sample.store))
       0 1700000000000 []
       [Call.Medicine_find; Call.Patient_save; Call.Patient_findById])
  /\ find (fun p => Patient._id p =? Sample.pid1)
          (DB.patients
             (db (snd (route_get_doctor_dashboard
                         (mkRequest (Some Sample.doctor1) "") Sample.world))))
     = Some (Patient.mk "65f0aaaa0000000000000001" "PAT-ASHA01" (Some "Asha")
               None None None None None ["65f0cccc0000000000000001"] [] []
               (Some (Vitals.mk (Some "150/90") (Some "150") None None))
               (Some "65f0bbbb0000000000000001") None)
  /\ option_map Patient.assignedDoctor
       (find (fun p => Patient._id p =? Sample.pid1)
             (DB.patients
                (db (snd (route_get_doctor_dashboard
                            (mkRequest (Some Sample.doctor1) "")
                            Sample.world)))))
     = Some (Some (User._id Sample.doctor1))
  /\ (forall q, In q [Sample.asha; Sample.ravi] ->
                Patient._id q <> Sample.pid1 ->
                In q (DB.patients
                        (db (snd (route_get_doctor_dashboard
                                    (mkRequest (Some Sample.doctor1) "")
                                    Sample.world))))).
Proof.
  exact (C7_dashboard_auto_assign Sample.doctor1 "" Sample.pid1 Sample.asha
           Sample.world eq_refl eq_refl eq_refl).
Defined.

(** The doctor's id read back from the store after the visit. *)
Example dashboard_assigns_the_visitor :
  option_map Patient.assignedDoctor
    (find (fun p => Patient._id p =? Sample.pid1)
          (DB.patients
             (db (snd (route_get_doctor_dashboard
                         (mkRequest (Some Sample.doctor1) "") Sample.world)))))
  = Some (Some "65f0bbbb0000000000000001").
Proof. reflexivity. Qed.

Example dashboard_assigned_unchanged :
  route_get_doctor_dashboard (mkRequest (Some Sample.doctor2) "") Sample.world
  = (Val (Render (doctorView Sample.ravi [])),
     mkWorld Sample.store 0 1700000000000 []
       [Call.Medicine_find; Call.Patient_findById]).
Proof. reflexivity. Qed.

(** ** GET /patient/:id/medicines *)

(** C8: for an authenticated request to GET /patient/:id/medicines whose
    well-formed id is the id of no Patient, the handler reads _id of the
    null patient right after the lookup: it throws a TypeError that
    nothing catches, having made no other call; and for no request at all
    does this route answer 404. *)
Theorem C8_null_dereference `{P : Platform} (req : Request) (w : World) :
  user req <> None ->
  (forall oid,
      ObjectId_fromString (params_id req) = Some oid ->
      find (fun p => Patient._id p =? oid) (DB.patients (db w)) = None ->
      route_get_patient_medicines req w
      = (Throw (TypeError "Cannot read properties of null (reading '_id')"),
         mkWorld (db w) (oids w) (now w) (flash w)
           (Call.Patient_findById :: calls w)))
  /\ (forall body,
         fst (route_get_patient_medicines req w) <> Val (Send 404 body)).
Proof.
  intros Hu. unfold route_get_patient_medicines, isAuth.
  destruct (user req) as [u|]; [clear Hu|contradiction].
  unfold get_patient_medicines, Patient_findById, Medicine_find_patient.
  step. split.
  - intros oid Hoid Hnone. rewrite Hoid. simpl. rewrite Hnone. reflexivity.
  - intros body.
    destruct (ObjectId_fromString (params_id req)) as [oid|]; simpl;
      [|discriminate].
    destruct (find _ (DB.patients (db w))) as [p|]; simpl; discriminate.
Qed.

Lemma C8_null_dereference_witness :
  route_get_patient_medicines
    (mkRequest (Some Sample.doctor1) "65f0aaaa00000000000000ee") Sample.world
  = (Throw (TypeError "Cannot read properties of null (reading '_id')"),
     mkWorld Sample.store 0 1700000000000 [] [Call.Patient_findById]).
Proof.
  destruct (C8_null_dereference
              (mkRequest (Some Sample.doctor1) "65f0aaaa00000000000000ee")
              Sample.world) as [H _].
  - discriminate.
  - apply (H "65f0aaaa00000000000000ee"); reflexivity.
Defined.

(** ** Medicine update and delete *)

Lemma find_remove_first (l : list Medicine.t) (oid : ObjectId) :
  NoDup (map Medicine._id l) ->
  find (fun m => Medicine._id m =? oid)
       (remove_first (fun m => Medicine._id m =? oid) l) = None.
Proof.
  induction l as [|x l IH]; simpl; intros Hnd; [reflexivity|].
  inversion Hnd as [|? ? Hnotin Hnd']; subst.
  destruct (Medicine._id x =? oid) eqn:E; simpl.
  - apply String.eqb_eq in E.
    destruct (find (fun m => Medicine._id m =? oid) l) as [y|] eqn:F;
      [|reflexivity].
    apply find_some in F. destruct F as [Hin Hy].
    apply String.eqb_eq in Hy. exfalso. apply Hnotin.
    rewrite E, <- Hy. apply in_map. exact Hin.
  - rewrite E. apply IH. exact Hnd'.
Qed.

(** C6: when a doctor's medicine update or medicine delete succeeds, the
    redirect location is the fixed text
    /doctor/patient/${req.params.id}/medicines, whatever the request: no
    id is inserted.  The update has stored, under the medicine's id, the
    name, dosesRemaining, frequency and reason of the form (the patient
    reference as before, the other documents as before); the delete has
    removed the medicine with the requested id. *)
Theorem C6_literal_redirect `{P : Platform}
    (u : User.t) (id : string) (f : MedicineForm.t) (w : World)
    (loc : string) :
  User.role u = "doctor" ->
  (fst (route_post_doctor_medicine_update (mkRequest (Some u) id) f w)
   = Val (Redirect loc) ->
   loc = "/doctor/patient/${req.params.id}/medicines"
   /\ exists oid med n,
       ObjectId_fromString id = Some oid
       /\ find (fun m => Medicine._id m =? oid) (DB.medicines (db w))
          = Some med
       /\ Number_cast (MedicineForm.dosesRemaining f) = Some n
       /\ let updated :=
            Medicine.mk oid (Some (MedicineForm.name f)) n
              (Some (MedicineForm.frequency f))
              (Some (MedicineForm.reason f)) (Medicine.patient med) in
          db (snd (route_post_doctor_medicine_update
                     (mkRequest (Some u) id) f w))
          = DB.with_medicines
              (map (fun q => if Medicine._id q =? oid then updated else q))
              (db w)
          /\ find (fun m => Medicine._id m =? oid)
                  (DB.medicines
                     (db (snd (route_post_doctor_medicine_update
                                 (mkRequest (Some u) id) f w))))
             = Some updated)
  /\ (fst (route_post_doctor_medicine_delete (mkRequest (Some u) id) w)
      = Val (Redirect loc) ->
      loc = "/doctor/patient/${req.params.id}/medicines"
      /\ exists oid,
          ObjectId_fromString id = Some oid
          /\ db (snd (route_post_doctor_medicine_delete
                        (mkRequest (Some u) id) w))
             = DB.with_medicines
                 (remove_first (fun m => Medicine._id m =? oid)) (db w)
          /\ (NoDup (map Medicine._id (DB.medicines (db w))) ->
              find (fun m => Medicine._id m =? oid)
                   (DB.medicines
                      (db (snd (route_post_doctor_medicine_delete
                                  (mkRequest (Some u) id) w))))
              = None)).
Proof.
  intros Hrole.
  unfold route_post_doctor_medicine_update, route_post_doctor_medicine_delete,
    isAuth, isDoctor, post_doctor_medicine_update,
    post_doctor_medicine_delete, Medicine_findById, Medicine_save,
    Medicine_findByIdAndDelete, Medicine_assign.
  simpl. rewrite Hrole. simpl. step.
  destruct (ObjectId_fromString id) as [oid|]; simpl;
    [|split; discriminate].
  split.
  - destruct (find _ (DB.medicines (db w))) as [med|] eqn:Hfind; simpl;
      [|discriminate].
    destruct (Number_cast (MedicineForm.dosesRemaining f)) as [n|]; simpl;
      [|discriminate].
    intros H. inversion H. split; [reflexivity|].
    exists oid, med, n.
    pose proof Hfind as Hmed. apply find_some in Hmed.
    destruct Hmed as [_ Hmed]. apply String.eqb_eq in Hmed.
    rewrite Hmed.
    split; [reflexivity|]. split; [exact Hfind|]. split; [reflexivity|].
    simpl. split; [reflexivity|].
    apply (find_replace Medicine._id oid _ med); [exact Hfind|reflexivity].
  - intros H. inversion H. split; [reflexivity|].
    exists oid. split; [reflexivity|]. split; [reflexivity|].
    apply find_remove_first.
Qed.

Lemma C6_literal_redirect_witness :
  ("/doctor/patient/${req.params.id}/medicines"
   = "/doctor/patient/${req.params.id}/medicines"
   /\ exists oid med n,
       Sample.fromString Sample.mid1 = Some oid
       /\ find (fun m => Medicine._id m =? oid) [Sample.med1] = Some med
       /\ Sample.castNumber "30" = Some n
       /\ let updated :=
            Medicine.mk oid (Some "Metformin") n (Some "twice daily")
              (Some "diabetes") (Medicine.patient med) in
          db (snd (route_post_doctor_medicine_update
                     (mkRequest (Some Sample.doctor1) Sample.mid1)
                     Sample.medForm Sample.world))
          = DB.with_medicines
              (map (fun q => if Medicine._id q =? oid then updated else q))
              Sample.store
          /\ find (fun m => Medicine._id m =? oid)
                  (DB.medicines
                     (db (snd (route_post_doctor_medicine_update
                                 (mkRequest (Some Sample.doctor1) Sample.mid1)
                                 Sample.medForm Sample.world))))
             = Some updated)
  /\ ("/doctor/patient/${req.params.id}/medicines"
      = "/doctor/patient/${req.params.id}/medicines"
      /\ exists oid,
          Sample.fromString Sample.mid1 = Some oid
          /\ db (snd (route_post_doctor_medicine_delete
                        (mkRequest (Some Sample.doctor1) Sample.mid1)
                        Sample.world))
             = DB.with_medicines
                 (remove_first (fun m => Medicine._id m =? oid)) Sample.store
          /\ (NoDup [Sample.mid1] ->
              find (fun m => Medicine._id m =? oid)
                   (DB.medicines
                      (db (snd (route_post_doctor_medicine_delete
                                  (mkRequest (Some Sample.doctor1)
                                     Sample.mid1)
                                  Sample.world))))
              = None)).
Proof.
  destruct (C6_literal_redirect Sample.doctor1 Sample.mid1 Sample.medForm
              Sample.world "/doctor/patient/${req.params.id}/medicines"
              eq_refl) as [Hupdate Hdelete].
  split.
  - apply Hupdate. reflexivity.
  - apply Hdelete. reflexivity.
Defined.

Example delete_then_gone :
  route_post_doctor_medicine_delete
    (mkRequest (Some Sample.doctor1) Sample.mid1) Sample.world
  = (Val (Redirect "/doctor/patient/${req.params.id}/medicines"),
     mkWorld
       (DB.mk [Sample.doctor1; Sample.doctor2] [Sample.asha; Sample.ravi] []
          (DB.prescriptions Sample.store))
       0 1700000000000 [] [Call.Medicine_findByIdAndDelete]).
Proof. reflexivity. Qed.

Example update_then_stored :
  route_post_doctor_medicine_update
    (mkRequest (Some Sample.doctor1) Sample.mid1) Sample.medForm Sample.world
  = (Val (Redirect "/doctor/patient/${req.params.id}/medicines"),
     mkWorld
       (DB.mk [Sample.doctor1; Sample.doctor2] [Sample.asha; Sample.ravi]
          [Medicine.mk Sample.mid1 (Some "Metformin") (Some 30%float)
             (Some "twice daily") (Some "diabetes") (Some Sample.pid1)]
          (DB.prescriptions Sample.store))
       0 1700000000000 [] [Call.Medicine_save; Call.Medicine_findById]).
Proof. reflexivity. Qed.

Example update_missing_medicine :
  fst (route_post_doctor_medicine_update
         (mkRequest (Some Sample.doctor1) "65f0cccc00000000000000ee")
         Sample.medForm Sample.world)
  = Val (Send 500 "Failure to update Medicine").
Proof. reflexivity. Qed.

(** ** No route writes a medicines array *)

(** Destructs every test a handler makes, leaving the leaves. *)
Ltac branches :=
  repeat (simpl;
          match goal with
          | |- context [match ?x with _ => _ end] =>
              lazymatch x with
              | context [match _ with _ => _ end] => fail
              | _ => destruct x eqn:?
              end
          end);
  simpl.

Lemma serve_patients `{P : Platform} (a : Action) (w : World) :
  forall p', In p' (DB.patients (db (snd (serve a w)))) ->
    Patient.medicines p' = []
    \/ exists p, In p (DB.patients (db w))
                 /\ Patient.medicines p' = Patient.medicines p.
Proof.
  assert (Hsame : forall w' : World,
             DB.patients (db w') = DB.patients (db w) ->
             forall p', In p' (DB.patients (db w')) ->
               Patient.medicines p' = []
               \/ exists p, In p (DB.patients (db w))
                            /\ Patient.medicines p' = Patient.medicines p).
  { intros w' Heq p' Hin. right. exists p'. rewrite <- Heq.
    split; [exact Hin|reflexivity]. }
  destruct a as [f|req|req|req|req f|req f|req|req|req f|req]; simpl.
  - (* signup: at most one new patient, with no medicines *)
    unfold post_signup, signup_create_user, User_findOne, Patient_findOne,
      Patient_create, new_User, User_save. step.
    branches; try (apply Hsame; reflexivity);
      intros p' Hin; apply in_app_or in Hin;
      (destruct Hin as [Hin|[Hin|[]]];
       [right; exists p'; split; [exact Hin|reflexivity]
       |left; subst p'; reflexivity]).
  - unfold route_get_patient, isAuth, get_patient, Patient_findById. step.
    branches; apply Hsame; reflexivity.
  - (* dashboard: assignedDoctor only *)
    unfold route_get_doctor_dashboard, isAuth, isDoctor, get_doctor_dashboard,
      Patient_findById_oid, Patient_save, Medicine_find_in. step.
    branches; try (apply Hsame; reflexivity).
    intros p' Hin. apply in_map_iff in Hin. destruct Hin as [q [Hq Hin]].
    right.
    match goal with
    | H : find _ (DB.patients (db w)) = Some ?p0 |- _ =>
        apply find_some in H; destruct H as [Hp0 _];
        destruct (Patient._id q =? Patient._id p0)
    end.
    + subst p'. eexists. split; [exact Hp0|reflexivity].
    + subst p'. exists q. split; [exact Hin|reflexivity].
  - unfold route_get_patient_medicines, isAuth, get_patient_medicines,
      Patient_findById, Medicine_find_patient. step.
    branches; apply Hsame; reflexivity.
  - unfold route_post_doctor_patient_medicines, isAuth, isDoctor,
      post_doctor_patient_medicines, new_Medicine, Medicine_save_new,
      Medicine_assign. step.
    branches; apply Hsame; reflexivity.
  - unfold route_post_doctor_medicine_update, isAuth, isDoctor,
      post_doctor_medicine_update, Medicine_findById, Medicine_save,
      Medicine_assign. step.
    branches; apply Hsame; reflexivity.
  - unfold route_post_doctor_medicine_delete, isAuth, isDoctor,
      post_doctor_medicine_delete, Medicine_findByIdAndDelete. step.
    branches; apply Hsame; reflexivity.
  - unfold route_get_doctor_patient_prescriptions, isAuth, isDoctor,
      get_doctor_patient_prescriptions, ObjectId_isValid, Patient_findById,
      Prescription_find. step.
    branches; apply Hsame; reflexivity.
  - unfold route_post_doctor_patient_prescriptions, isAuth, isDoctor,
      post_doctor_patient_prescriptions, new_Prescription, Prescription_save.
    step.
    branches; apply Hsame; reflexivity.
  - unfold route_get_doctor_patient_ai_insights, isAuth, isDoctor,
      get_doctor_patient_ai_insights, Patient_findById, Prescription_find.
    step.
    branches; apply Hsame; reflexivity.
Qed.

(** An id that no medicines array holds stays so, whatever is served. *)
Lemma serve_all_unlisted `{P : Platform}
    (id : ObjectId) (l : list Action) (w : World) :
  unlisted id w -> unlisted id (serve_all l w).
Proof.
  revert w. induction l as [|a l IH]; intros w Hw; simpl; [exact Hw|].
  apply IH. intros p' Hin.
  destruct (serve_patients a w p' Hin) as [Hnil|[p [Hp Heq]]].
  - rewrite Hnil. intros [].
  - rewrite Heq. apply Hw. exact Hp.
Qed.

(** ** Medicine creation and the dashboard *)

(** The medicines the dashboard renders are the stored medicines whose id
    is a member of the medicines array of a stored patient. *)
Lemma dashboard_lists_by_membership `{P : Platform}
    (req : Request) (w w' : World) (patient : Patient.t)
    (meds : list Medicine.t) :
  route_get_doctor_dashboard req w
  = (Val (Render (doctorView patient meds)), w') ->
  (exists p0, In p0 (DB.patients (db w))
              /\ Patient.medicines patient = Patient.medicines p0)
  /\ meds = filter (fun m => existsb (String.eqb (Medicine._id m))
                                     (Patient.medicines patient))
                   (DB.medicines (db w)).
Proof.
  unfold route_get_doctor_dashboard, isAuth, isDoctor, get_doctor_dashboard,
    Patient_findById_oid, Patient_save, Medicine_find_in.
  destruct (user req) as [u|] eqn:Hu; [|discriminate].
  destruct (User.role u =? "doctor"); [|discriminate].
  step. rewrite Hu. simpl.
  destruct (User.patient u) as [pid|]; simpl; [|discriminate].
  destruct (find _ (DB.patients (db w))) as [p0|] eqn:Hfind; simpl;
    [|discriminate].
  apply find_some in Hfind. destruct Hfind as [Hin _].
  destruct (Patient.assignedDoctor p0); simpl; intros H; inversion H; subst;
    (split; [eexists; split; [eassumption|reflexivity] | reflexivity]).
Qed.

(** C9: POST /doctor/patient/:id/medicines changes no Patient document,
    whatever the request.  When it succeeds it appends one Medicine, whose
    id is the freshly generated one; as no patient's medicines array holds
    that id and the dashboard lists medicines by membership in that array,
    no dashboard rendered afterwards, directly or after any further
    requests, includes the created medicine. *)
Theorem C9_created_medicine_not_on_dashboard `{P : Platform}
    (req : Request) (f : MedicineForm.t) (w : World) :
  DB.patients (db (snd (route_post_doctor_patient_medicines req f w)))
  = DB.patients (db w)
  /\ (forall loc,
         fst (route_post_doctor_patient_medicines req f w)
         = Val (Redirect loc) ->
         (exists u, user req = Some u /\ User.role u = "doctor") ->
         exists m,
           Medicine._id m = ObjectId_generate (oids w)
           /\ Medicine.patient m = ObjectId_fromString (params_id req)
           /\ DB.medicines
                (db (snd (route_post_doctor_patient_medicines req f w)))
              = (DB.medicines (db w) ++ [m])%list)
  /\ (unlisted (ObjectId_generate (oids w)) w ->
      forall later req2 patient meds w2,
        route_get_doctor_dashboard req2
          (serve_all later
             (snd (route_post_doctor_patient_medicines req f w)))
        = (Val (Render (doctorView patient meds)), w2) ->
        forall m, In m meds -> Medicine._id m <> ObjectId_generate (oids w)).
Proof.
  assert (Hframe :
    DB.patients (db (snd (route_post_doctor_patient_medicines req f w)))
    = DB.patients (db w)).
  { unfold route_post_doctor_patient_medicines, isAuth, isDoctor,
      post_doctor_patient_medicines, new_Medicine, Medicine_save_new,
      Medicine_assign.
    destruct (user req) as [u|]; [|reflexivity].
    destruct (User.role u =? "doctor"); [|reflexivity].
    step.
    destruct (ObjectId_fromString (params_id req)); [|reflexivity].
    destruct (Number_cast (MedicineForm.dosesRemaining f)); reflexivity. }
  split; [exact Hframe|]. split.
  - intros loc Hok [u [Hu Hrole]]. revert Hok.
    unfold route_post_doctor_patient_medicines, isAuth, isDoctor,
      post_doctor_patient_medicines, new_Medicine, Medicine_save_new,
      Medicine_assign.
    rewrite Hu, Hrole. simpl. step.
    destruct (ObjectId_fromString (params_id req)) as [pid|]; simpl;
      [|discriminate].
    destruct (Number_cast (MedicineForm.dosesRemaining f)) as [n|]; simpl;
      [|discriminate].
    intros _. refine (ex_intro _ _ (conj _ (conj _ eq_refl))); reflexivity.
  - intros Hfresh later req2 patient meds w2 Hdash m Hin.
    assert (Hafter : unlisted (ObjectId_generate (oids w))
              (serve_all later
                 (snd (route_post_doctor_patient_medicines req f w)))).
    { apply serve_all_unlisted. unfold unlisted. rewrite Hframe.
      exact Hfresh. }
    destruct (dashboard_lists_by_membership _ _ _ _ _ Hdash)
      as [[p0 [Hp0 Hmeds]] Hlist].
    subst meds.
    apply filter_In in Hin. destruct Hin as [_ Hmem].
    apply existsb_exists in Hmem. destruct Hmem as [x [Hx Heq]].
    apply String.eqb_eq in Heq. subst x.
    intros Hnew. apply (Hafter p0 Hp0).
    rewrite <- Hnew, <- Hmeds. exact Hx.
Qed.

(** Doctor 1 adds a medicine for patient 1, opens the AI insights, then
    the dashboard: the dashboard shows the one medicine of the array. *)
Lemma C9_created_medicine_witness :
  DB.patients
    (db (snd (route_post_doctor_patient_medicines
                (mkRequest (Some Sample.doctor1) Sample.pid1)
                Sample.medForm Sample.world)))
  = [Sample.asha; Sample.ravi]
  /\ (exists m,
        Medicine._id m = "65f0c0de0000000000000000"
        /\ Medicine.patient m = Some Sample.pid1
        /\ DB.medicines
             (db (snd (route_post_doctor_patient_medicines
                         (mkRequest (Some Sample.doctor1) Sample.pid1)
                         Sample.medForm Sample.world)))
           = [Sample.med1; m])
  /\ (forall m, In m [Sample.med1] ->
                Medicine._id m <> "65f0c0de0000000000000000").
Proof.
  destruct (C9_created_medicine_not_on_dashboard
              (mkRequest (Some Sample.doctor1) Sample.pid1)
              Sample.medForm Sample.world) as [Hframe [Hcreated Hdash]].
  split; [exact Hframe|]. split.
  - apply (Hcreated ("/doctor/patient/" ++ Sample.pid1 ++ "/medicines")).
    + reflexivity.
    + exists Sample.doctor1. split; reflexivity.
  - assert (Hfresh : unlisted (ObjectId_generate (oids Sample.world))
                       Sample.world).
    { intros p [H|[H|[]]]; subst p; simpl; intuition discriminate. }
    apply (Hdash Hfresh
             [GetAiInsights (mkRequest (Some Sample.doctor1) Sample.pid1)]
             (mkRequest (Some Sample.doctor1) "")
             (Patient.set_assignedDoctor Sample.uid1 Sample.asha)
             [Sample.med1]
             (mkWorld
                (DB.mk [Sample.doctor1; Sample.doctor2]
                   [Patient.set_assignedDoctor Sample.uid1 Sample.asha;
                    Sample.ravi]
                   [Sample.med1;
                    Medicine.mk "65f0c0de0000000000000000" (Some "Metformin")
                      (Some 30%float) (Some "twice daily") (Some "diabetes")
                      (Some Sample.pid1)]
                   (DB.prescriptions Sample.store))
                1 1700000000000 []
                [Call.Medicine_find; Call.Patient_save; Call.Patient_findById;
                 Call.Prescription_find; Call.Patient_findById;
                 Call.Medicine_save])).
    reflexivity.
Defined.

(** The patient's own medicine list, which filters by the medicine's
    patient reference, does show the created medicine. *)
Example created_medicine_on_medicine_view :
  fst (route_get_patient_medicines
         (mkRequest (Some Sample.doctor1) Sample.pid1)
         (snd (route_post_doctor_patient_medicines
                 (mkRequest (Some Sample.doctor1) Sample.pid1)
                 Sample.medForm Sample.world)))
  = Val (Render (medicineView Sample.asha
           [Sample.med1;
            Medicine.mk "65f0c0de0000000000000000" (Some "Metformin")
              (Some 30%float) (Some "twice daily") (Some "diabetes")
              (Some Sample.pid1)])).
Proof. reflexivity. Qed.

(** ** Prescription creation *)

(** C10 as stated fails: for the path id xyz, which is not a well-formed
    identifier, the document fails validation when saved, the handler
    answers 500 and no Prescription is persisted. *)
Lemma C10_counterexample :
  fst (route_post_doctor_patient_prescriptions
         (mkRequest (Some Sample.doctor1) "xyz") Sample.rxForm Sample.world)
  = Val (Send 500 "Failed to save Prescription")
  /\ DB.prescriptions
       (db (snd (route_post_doctor_patient_prescriptions
                   (mkRequest (Some Sample.doctor1) "xyz") Sample.rxForm
                   Sample.world)))
     = DB.prescriptions Sample.store.
Proof. split; reflexivity. Qed.

(** C10 (amended): POST /doctor/patient/:id/prescriptions makes no
    ownership check.  For every doctor, every well-formed path id and
    every form whose medicine lines cast, whether or not the id equals the
    doctor's assigned-patient reference and whether or not a Patient has
    that id, the handler persists the Prescription (patient the path id,
    doctor the session user) and redirects to the list; for no request
    does it answer Unauthorized; for a path id that is not a well-formed
    identifier the save fails, the answer is 500 and nothing is stored. *)
Theorem C10_no_ownership_check `{P : Platform}
    (u : User.t) (id : string) (f : PrescriptionForm.t) (w : World) :
  User.role u = "doctor" ->
  (forall status,
      fst (route_post_doctor_patient_prescriptions (mkRequest (Some u) id) f w)
      <> Val (Send status "Unauthorized"))
  /\ (forall oid lines,
         ObjectId_fromString id = Some oid ->
         cast_lines (PrescriptionForm.medicines f) = Some lines ->
         route_post_doctor_patient_prescriptions (mkRequest (Some u) id) f w
         = (Val (Redirect ("/doctor/patient/" ++ id ++ "/prescriptions")),
            mkWorld
              (DB.with_prescriptions
                 (fun rs =>
                    (rs ++ [Prescription.mk (ObjectId_generate (oids w))
                              (Some oid) (Some (User._id u)) lines
                              (Some (PrescriptionForm.notes f)) (now w)])%list)
                 (db w))
              (S (oids w)) (now w) (flash w)
              (Call.Prescription_save :: calls w)))
  /\ (ObjectId_fromString id = None ->
      fst (route_post_doctor_patient_prescriptions (mkRequest (Some u) id) f w)
      = Val (Send 500 "Failed to save Prescription")
      /\ db (snd (route_post_doctor_patient_prescriptions
                    (mkRequest (Some u) id) f w)) = db w).
Proof.
  intros Hrole.
  unfold route_post_doctor_patient_prescriptions, isAuth, isDoctor,
    post_doctor_patient_prescriptions, new_Prescription, Prescription_save.
  simpl. rewrite Hrole. simpl. step. split; [|split].
  - intros status.
    destruct (ObjectId_fromString id) as [oid|]; simpl; [|discriminate].
    destruct (cast_lines (PrescriptionForm.medicines f)); simpl; discriminate.
  - intros oid lines Hoid Hlines. rewrite Hoid, Hlines. reflexivity.
  - intros Hnone. rewrite Hnone. split; reflexivity.
Qed.

(** Doctor 2 is assigned to patient 2 and prescribes for patient 1. *)
Lemma C10_no_ownership_witness :
  DB.prescriptions
    (db (snd (route_post_doctor_patient_prescriptions
                (mkRequest (Some Sample.doctor2) Sample.pid1) Sample.rxForm
                Sample.world)))
  = (DB.prescriptions Sample.store
     ++ [Prescription.mk "65f0c0de0000000000000000" (Some Sample.pid1)
           (Some Sample.uid2)
           [RxLine.mk (Some "Metformin") (Some 2%float) (Some 30%float)]
           (Some "after meals") 1700000000000])%list.
Proof.
  destruct (C10_no_ownership_check Sample.doctor2 Sample.pid1 Sample.rxForm
              Sample.world eq_refl) as [_ [Hcreate _]].
  rewrite (Hcreate Sample.pid1
             [RxLine.mk (Some "Metformin") (Some 2%float) (Some 30%float)]
             eq_refl eq_refl).
  reflexivity.
Defined.

(** A prescription for an id that no Patient has is persisted too. *)
Example prescription_for_missing_patient :
  fst (route_post_doctor_patient_prescriptions
         (mkRequest (Some Sample.doctor1) "65f0aaaa00000000000000ee")
         Sample.rxForm Sample.world)
  = Val (Redirect "/doctor/patient/65f0aaaa00000000000000ee/prescriptions").
Proof. reflexivity. Qed.

(* ================================================================== *)
(** * Further properties of the handlers *)
(* ================================================================== *)

(** ** The guards *)

(** X1: a request that reaches a doctor-only route without the doctor
    role is turned away before the handler runs: with no user it is
    redirected to /login, with a user of another role it gets 403, and in
    both cases nothing is read, written or logged. *)
Theorem doctor_routes_guarded `{P : Platform}
    (sort_id_desc : list Medicine.t -> list Medicine.t)
    (a : Action) (req : Request) (w : World) :
  doctor_request a = Some req ->
  (forall u, user req = Some u -> User.role u <> "doctor") ->
  let refusal :=
    match user req with
    | None => Redirect "/login"
    | Some _ => Send 403 "Access Denied: Doctors only"
    end in
  serve a w = (Val refusal, w)
  /\ route_get_doctor_patient_medicines sort_id_desc req w = (Val refusal, w).
Proof.
  intros Ha Hrole.
  assert (Hguard : forall next : M Response,
             isAuth req (isDoctor req next) w
             = (Val match user req with
                    | None => Redirect "/login"
                    | Some _ => Send 403 "Access Denied: Doctors only"
                    end, w)).
  { intros next. unfold isAuth, isDoctor.
    destruct (user req) as [u|] eqn:Hu; [|reflexivity].
    destruct (User.role u =? "doctor") eqn:E; [|reflexivity].
    apply String.eqb_eq in E. exfalso. exact (Hrole u eq_refl E). }
  split; [|apply Hguard].
  destruct a; simpl in Ha; try discriminate; inversion Ha; subst;
    apply Hguard.
Qed.

Lemma doctor_routes_guarded_witness :
  serve (PostMedicineDelete (mkRequest (Some Demo.patientUser) Sample.mid1))
        Demo.world
  = (Val (Send 403 "Access Denied: Doctors only"), Demo.world)
  /\ route_get_doctor_patient_medicines (fun l => l)
       (mkRequest (Some Demo.patientUser) Sample.mid1) Demo.world
     = (Val (Send 403 "Access Denied: Doctors only"), Demo.world).
Proof.
  apply (doctor_routes_guarded (fun l => l)
           (PostMedicineDelete (mkRequest (Some Demo.patientUser) Sample.mid1))
           (mkRequest (Some Demo.patientUser) Sample.mid1) Demo.world).
  - reflexivity.
  - intros u Hu. inversion Hu. subst u. discriminate.
Defined.

(** The handlers of the four GET routes with a path id write nothing. *)
Lemma reads_only_frame `{P : Platform} (a : Action) (w : World) :
  reads_only a = true ->
  db (snd (serve a w)) = db w
  /\ flash (snd (serve a w)) = flash w
  /\ oids (snd (serve a w)) = oids w.
Proof.
  destruct a as [f|req|req|req|req f|req f|req|req|req f|req]; simpl;
    try discriminate; intros _.
  - unfold route_get_patient, isAuth, get_patient, Patient_findById. step.
    branches; repeat split.
  - unfold route_get_patient_medicines, isAuth, get_patient_medicines,
      Patient_findById, Medicine_find_patient. step.
    branches; repeat split.
  - unfold route_get_doctor_patient_prescriptions, isAuth, isDoctor,
      get_doctor_patient_prescriptions, ObjectId_isValid, Patient_findById,
      Prescription_find. step.
    branches; repeat split.
  - unfold route_get_doctor_patient_ai_insights, isAuth, isDoctor,
      get_doctor_patient_ai_insights, Patient_findById, Prescription_find.
    step.
    branches; repeat split.
Qed.

(** A route behind the middleware runs on the world whose pending error
    messages have been taken. *)
Lemma with_locals_run (u : option User.t) (next : M Response) (w : World) :
  with_locals u next w
  = match next (mkWorld (db w) (oids w) (now w)
                  (filter (fun m => negb (fst m =? "error")) (flash w))
                  (calls w)) with
    | (Val r, w') =>
        (Val (mkLocals u
                (rev (map snd (filter (fun m => fst m =? "error") (flash w)))),
              r), w')
    | (Throw e, w') => (Throw e, w')
    end.
Proof.
  unfold with_locals, take_flash, bind, ret.
  destruct (next _) as [[r|e] w']; reflexivity.
Qed.

(** X2: a request to one of the four GET routes with a path id only
    reads the store: whatever the request, the store and the identifier
    supply are left as they were.  Of the flash messages, the middleware
    that runs before the route takes the pending ones of kind error (they
    become res.locals.message, oldest first) and the handler adds none:
    after the request exactly the messages of other kinds are left. *)
Theorem get_routes_read_only `{P : Platform}
    (a : Action) (u : option User.t) (w : World) :
  reads_only a = true ->
  db (snd (with_locals u (serve a) w)) = db w
  /\ oids (snd (with_locals u (serve a) w)) = oids w
  /\ flash (snd (with_locals u (serve a) w))
     = filter (fun m => negb (fst m =? "error")) (flash w)
  /\ (forall locals r w',
         with_locals u (serve a) w = (Val (locals, r), w') ->
         locals_user locals = u
         /\ locals_message locals
            = rev (map snd (filter (fun m => fst m =? "error") (flash w)))).
Proof.
  intros Ha. rewrite with_locals_run.
  set (w1 := mkWorld (db w) (oids w) (now w)
               (filter (fun m => negb (fst m =? "error")) (flash w))
               (calls w)).
  destruct (reads_only_frame a w1 Ha) as [Hdb [Hflash Hoids]].
  destruct (serve a w1) as [[r|e] w'] eqn:E; simpl in *.
  - repeat split; try assumption; inversion H; reflexivity.
  - repeat split; try assumption; discriminate.
Qed.

(** A failed signup leaves its message pending; the next page takes it. *)
Lemma get_routes_read_only_witness :
  db (snd (with_locals (Some Sample.doctor1)
             (serve (GetPatient (mkRequest (Some Sample.doctor1) Sample.pid1)))
             (snd (post_signup Sample.dupEmail Sample.world))))
  = Sample.store
  /\ oids (snd (with_locals (Some Sample.doctor1)
                  (serve (GetPatient
                            (mkRequest (Some Sample.doctor1) Sample.pid1)))
                  (snd (post_signup Sample.dupEmail Sample.world))))
     = 0
  /\ flash (snd (with_locals (Some Sample.doctor1)
                   (serve (GetPatient
                             (mkRequest (Some Sample.doctor1) Sample.pid1)))
                   (snd (post_signup Sample.dupEmail Sample.world))))
     = []
  /\ (forall locals r w',
         with_locals (Some Sample.doctor1)
           (serve (GetPatient (mkRequest (Some Sample.doctor1) Sample.pid1)))
           (snd (post_signup Sample.dupEmail Sample.world))
         = (Val (locals, r), w') ->
         locals_user locals = Some Sample.doctor1
         /\ locals_message locals = ["Email already registered"]).
Proof.
  exact (get_routes_read_only
           (GetPatient (mkRequest (Some Sample.doctor1) Sample.pid1))
           (Some Sample.doctor1)
           (snd (post_signup Sample.dupEmail Sample.world)) eq_refl).
Defined.

Example message_shown_once :
  fst (with_locals (Some Sample.doctor1)
         (serve (GetPatient (mkRequest (Some Sample.doctor1) Sample.pid1)))
         (snd (post_signup Sample.dupEmail Sample.world)))
  = Val (mkLocals (Some Sample.doctor1) ["Email already registered"],
         Render (patientView Sample.asha))
  /\ fst (with_locals (Some Sample.doctor1)
            (serve (GetPatient (mkRequest (Some Sample.doctor1) Sample.pid1)))
            (snd (with_locals (Some Sample.doctor1)
                    (serve (GetPatient
                              (mkRequest (Some Sample.doctor1) Sample.pid1)))
                    (snd (post_signup Sample.dupEmail Sample.world)))))
     = Val (mkLocals (Some Sample.doctor1) [],
            Render (patientView Sample.asha)).
Proof. split; reflexivity. Qed.

(** ** The score and the advisories *)

(** X3: whatever the patient and the prescriptions, the score lies
    between 50 and 100, there are between one and three risks, and there
    are between one and three suggestions. *)
Theorem insight_bounds (patient : Patient.t)
    (prescriptions : list Prescription.t) :
  (50 <= score (aiLogic patient prescriptions) <= 100)%Z
  /\ 1 <= List.length (risks (aiLogic patient prescriptions)) <= 3
  /\ 1 <= List.length (suggestions (aiLogic patient prescriptions)) <= 3.
Proof.
  unfold aiLogic.
  destruct (Js.includes (Js.orElse (vitals_bp patient) "") "140"
            || Js.includes (Js.orElse (vitals_bp patient) "") "150");
    destruct (Js.gt (sugar_value patient) 140);
    destruct (3 <? List.length prescriptions)%nat;
    simpl; lia.
Qed.

(** X4: the score is 100 exactly when the risk list is the default entry;
    Lifestyle improvement is recommended exactly when at least two of the
    three tests fire; and the suggestion list is the default entry
    exactly when neither the bp test nor the sugar test fires, so a
    patient whose only risk is long-term medication is told to keep
    following the current treatment. *)
Theorem insight_advisories (patient : Patient.t)
    (prescriptions : list Prescription.t) :
  let i := aiLogic patient prescriptions in
  let long := (3 <? List.length prescriptions)%nat in
  (score i = 100%Z <-> risks i = ["No major risks detected"])
  /\ (In "Lifestyle improvement recommended" (suggestions i)
      <-> (bp_high patient && sugar_high patient)
          || (bp_high patient && long) || (sugar_high patient && long)
          = true)
  /\ (suggestions i = ["Keep following current treatment"]
      <-> bp_high patient = false /\ sugar_high patient = false).
Proof.
  unfold aiLogic, bp_high, sugar_high.
  destruct (Js.includes (Js.orElse (vitals_bp patient) "") "140"
            || Js.includes (Js.orElse (vitals_bp patient) "") "150");
    destruct (Js.gt (sugar_value patient) 140);
    destruct (3 <? List.length prescriptions)%nat;
    simpl;
    repeat split; intros; try discriminate; try reflexivity; try lia;
    repeat match goal with
           | H : _ /\ _ |- _ => destruct H
           | H : _ \/ _ |- _ => destruct H
           | H : False |- _ => destruct H
           end;
    try discriminate; auto.
Qed.

(** ** The prescriptions list *)

Lemma insert_by_date_perm (x : Prescription.t) (l : list Prescription.t) :
  Permutation (insert_by_date x l) (x :: l).
Proof.
  induction l as [|y l IH]; simpl; [apply Permutation_refl|].
  destruct (Prescription.date y <? Prescription.date x)%Z.
  - apply Permutation_refl.
  - apply perm_trans with (y :: x :: l).
    + apply perm_skip. exact IH.
    + apply perm_swap.
Qed.

Lemma sort_date_desc_perm (l : list Prescription.t) :
  Permutation (sort_date_desc l) l.
Proof.
  induction l as [|x l IH]; simpl; [apply perm_nil|].
  apply perm_trans with (x :: sort_date_desc l).
  - apply insert_by_date_perm.
  - apply perm_skip. exact IH.
Qed.

Lemma insert_by_date_hd (y x : Prescription.t) (l : list Prescription.t) :
  HdRel newer_or_same y l -> newer_or_same y x ->
  HdRel newer_or_same y (insert_by_date x l).
Proof.
  intros Hl Hx. destruct l as [|z l]; simpl.
  - constructor. exact Hx.
  - destruct (Prescription.date z <? Prescription.date x)%Z.
    + constructor. exact Hx.
    + constructor. inversion Hl. assumption.
Qed.

Lemma insert_by_date_sorted (x : Prescription.t) (l : list Prescription.t) :
  Sorted newer_or_same l -> Sorted newer_or_same (insert_by_date x l).
Proof.
  induction l as [|y l IH]; simpl; intros Hs.
  - constructor; constructor.
  - destruct (Prescription.date y <? Prescription.date x)%Z eqn:E.
    + constructor; [exact Hs|]. constructor.
      unfold newer_or_same. apply Z.ltb_lt in E. lia.
    + inversion Hs as [|? ? Hs' Hhd]; subst.
      constructor; [apply IH; exact Hs'|].
      apply insert_by_date_hd; [exact Hhd|].
      unfold newer_or_same. apply Z.ltb_ge in E. exact E.
Qed.

Lemma sort_date_desc_sorted (l : list Prescription.t) :
  StronglySorted newer_or_same (sort_date_desc l).
Proof.
  apply Sorted_StronglySorted.
  - intros a b c Hab Hbc. unfold newer_or_same in *. lia.
  - induction l as [|x l IH]; simpl; [constructor|].
    apply insert_by_date_sorted. exact IH.
Qed.

(** What the list route does for the doctor of the patient. *)
Lemma prescriptions_list_run `{P : Platform}
    (u : User.t) (id : string) (patient : Patient.t) (w : World) :
  User.role u = "doctor" ->
  ObjectId_fromString id = Some (Patient._id patient) ->
  find (fun p => Patient._id p =? Patient._id patient) (DB.patients (db w))
  = Some patient ->
  User.patient u = Some (Patient._id patient) ->
  route_get_doctor_patient_prescriptions (mkRequest (Some u) id) w
  = (Val (Render (doctorPrescriptions patient
            (sort_date_desc (prescriptions_of (Patient._id patient) (db w))))),
     mkWorld (db w) (oids w) (now w) (flash w)
       (Call.Prescription_find :: Call.Patient_findById :: calls w)).
Proof.
  intros Hrole Hid Hfind Hown.
  unfold route_get_doctor_patient_prescriptions, isAuth, isDoctor,
    get_doctor_patient_prescriptions, ObjectId_isValid, Patient_findById,
    Prescription_find, not_owner, prescriptions_of.
  simpl. rewrite Hrole. simpl. step.
  rewrite Hid. simpl. rewrite Hfind. simpl. rewrite Hown. simpl.
  rewrite String.eqb_refl. reflexivity.
Qed.

(** X5: the doctor of a patient gets, from the prescriptions list, exactly
    the stored prescriptions of that patient (each once, none of another
    patient), ordered from the newest date to the oldest. *)
Theorem prescriptions_list_newest_first `{P : Platform}
    (u : User.t) (id : string) (patient : Patient.t) (w : World) :
  User.role u = "doctor" ->
  ObjectId_fromString id = Some (Patient._id patient) ->
  find (fun p => Patient._id p =? Patient._id patient) (DB.patients (db w))
  = Some patient ->
  User.patient u = Some (Patient._id patient) ->
  exists l,
    fst (route_get_doctor_patient_prescriptions (mkRequest (Some u) id) w)
    = Val (Render (doctorPrescriptions patient l))
    /\ Permutation l (prescriptions_of (Patient._id patient) (db w))
    /\ StronglySorted newer_or_same l.
Proof.
  intros Hrole Hid Hfind Hown.
  rewrite (prescriptions_list_run u id patient w Hrole Hid Hfind Hown).
  eexists. split; [reflexivity|]. split.
  - apply sort_date_desc_perm.
  - apply sort_date_desc_sorted.
Qed.

Lemma prescriptions_list_newest_first_witness :
  exists l,
    fst (route_get_doctor_patient_prescriptions
           (mkRequest (Some Sample.doctor1) Sample.pid1) Sample.world)
    = Val (Render (doctorPrescriptions Sample.asha l))
    /\ Permutation l (prescriptions_of Sample.pid1 Sample.store)
    /\ StronglySorted newer_or_same l.
Proof.
  apply (prescriptions_list_newest_first Sample.doctor1 Sample.pid1
           Sample.asha Sample.world); reflexivity.
Defined.

Example prescriptions_list_sample :
  fst (route_get_doctor_patient_prescriptions
         (mkRequest (Some Sample.doctor1) Sample.pid1) Sample.world)
  = Val (Render (doctorPrescriptions Sample.asha
           [Sample.rx "65f0dddd0000000000000004" 4;
            Sample.rx "65f0dddd0000000000000003" 3;
            Sample.rx "65f0dddd0000000000000002" 2;
            Sample.rx "65f0dddd0000000000000001" 1])).
Proof. reflexivity. Qed.

(** What the create route does with a well-formed request. *)
Lemma prescription_create_run `{P : Platform}
    (u : User.t) (id : string) (oid : ObjectId) (lines : list RxLine.t)
    (f : PrescriptionForm.t) (w : World) :
  User.role u = "doctor" ->
  ObjectId_fromString id = Some oid ->
  cast_lines (PrescriptionForm.medicines f) = Some lines ->
  route_post_doctor_patient_prescriptions (mkRequest (Some u) id) f w
  = (Val (Redirect ("/doctor/patient/" ++ id ++ "/prescriptions")),
     mkWorld
       (DB.with_prescriptions
          (fun rs =>
             (rs ++ [Prescription.mk (ObjectId_generate (oids w))
                       (Some oid) (Some (User._id u)) lines
                       (Some (PrescriptionForm.notes f)) (now w)])%list)
          (db w))
       (S (oids w)) (now w) (flash w)
       (Call.Prescription_save :: calls w)).
Proof.
  intros Hrole Hoid Hlines.
  unfold route_post_doctor_patient_prescriptions, isAuth, isDoctor,
    post_doctor_patient_prescriptions, new_Prescription, Prescription_save.
  simpl. rewrite Hrole. simpl. step. rewrite Hoid, Hlines. reflexivity.
Qed.

(** X6: a prescription the doctor of a patient creates is on the list the
    doctor opens next, which holds it together with the prescriptions
    stored before, and nothing else. *)
Theorem prescription_created_then_listed `{P : Platform}
    (u : User.t) (id : string) (patient : Patient.t)
    (lines : list RxLine.t) (f : PrescriptionForm.t) (w : World) :
  User.role u = "doctor" ->
  ObjectId_fromString id = Some (Patient._id patient) ->
  find (fun p => Patient._id p =? Patient._id patient) (DB.patients (db w))
  = Some patient ->
  User.patient u = Some (Patient._id patient) ->
  cast_lines (PrescriptionForm.medicines f) = Some lines ->
  let created :=
    Prescription.mk (ObjectId_generate (oids w))
      (Some (Patient._id patient)) (Some (User._id u)) lines
      (Some (PrescriptionForm.notes f)) (now w) in
  exists l,
    fst (route_get_doctor_patient_prescriptions (mkRequest (Some u) id)
           (snd (route_post_doctor_patient_prescriptions
                   (mkRequest (Some u) id) f w)))
    = Val (Render (doctorPrescriptions patient l))
    /\ Permutation l
         (created :: prescriptions_of (Patient._id patient) (db w)).
Proof.
  intros Hrole Hid Hfind Hown Hlines.
  rewrite (prescription_create_run u id _ lines f w Hrole Hid Hlines).
  simpl snd.
  match goal with
  | |- context [route_get_doctor_patient_prescriptions _ ?w1] =>
      rewrite (prescriptions_list_run u id patient w1 Hrole Hid Hfind Hown)
  end.
  eexists. split; [reflexivity|].
  eapply perm_trans; [apply sort_date_desc_perm|].
  unfold prescriptions_of. simpl.
  rewrite filter_app. simpl. rewrite String.eqb_refl.
  apply Permutation_sym, Permutation_cons_append.
Qed.

Lemma prescription_created_then_listed_witness :
  exists l,
    fst (route_get_doctor_patient_prescriptions
           (mkRequest (Some Sample.doctor1) Sample.pid1)
           (snd (route_post_doctor_patient_prescriptions
                   (mkRequest (Some Sample.doctor1) Sample.pid1)
                   Sample.rxForm Sample.world)))
    = Val (Render (doctorPrescriptions Sample.asha l))
    /\ Permutation l
         (Prescription.mk "65f0c0de0000000000000000" (Some Sample.pid1)
            (Some Sample.uid1)
            [RxLine.mk (Some "Metformin") (Some 2%float) (Some 30%float)]
            (Some "after meals") 1700000000000
          :: prescriptions_of Sample.pid1 Sample.store).
Proof.
  exact (prescription_created_then_listed Sample.doctor1 Sample.pid1
           Sample.asha
           [RxLine.mk (Some "Metformin") (Some 2%float) (Some 30%float)]
           Sample.rxForm Sample.world eq_refl eq_refl eq_refl eq_refl
           eq_refl).
Defined.

(** ** The life of a medicine *)

(** What the create route does with a well-formed request. *)
Lemma medicine_create_run `{P : Platform}
    (u : User.t) (id : string) (pid : ObjectId) (n : Number)
    (f : MedicineForm.t) (w : World) :
  User.role u = "doctor" ->
  ObjectId_fromString id = Some pid ->
  Number_cast (MedicineForm.dosesRemaining f) = Some n ->
  route_post_doctor_patient_medicines (mkRequest (Some u) id) f w
  = (Val (Redirect ("/doctor/patient/" ++ id ++ "/medicines")),
     mkWorld
       (DB.with_medicines
          (fun ms =>
             (ms ++ [Medicine.mk (ObjectId_generate (oids w))
                       (Some (MedicineForm.name f)) n
                       (Some (MedicineForm.frequency f))
                       (Some (MedicineForm.reason f)) (Some pid)])%list)
          (db w))
       (S (oids w)) (now w) (flash w) (Call.Medicine_save :: calls w)).
Proof.
  intros Hrole Hid Hn.
  unfold route_post_doctor_patient_medicines, isAuth, isDoctor,
    post_doctor_patient_medicines, new_Medicine, Medicine_save_new,
    Medicine_assign.
  simpl. rewrite Hrole. simpl. step. rewrite Hid, Hn. reflexivity.
Qed.

(** What the medicine view does when the patient exists. *)
Lemma medicine_view_run `{P : Platform}
    (v : User.t) (id : string) (patient : Patient.t) (w : World) :
  ObjectId_fromString id = Some (Patient._id patient) ->
  find (fun p => Patient._id p =? Patient._id patient) (DB.patients (db w))
  = Some patient ->
  route_get_patient_medicines (mkRequest (Some v) id) w
  = (Val (Render (medicineView patient
            (medicines_of (Patient._id patient) (db w)))),
     mkWorld (db w) (oids w) (now w) (flash w)
       (Call.Medicine_find :: Call.Patient_findById :: calls w)).
Proof.
  intros Hid Hfind.
  unfold route_get_patient_medicines, isAuth, get_patient_medicines,
    Patient_findById, Medicine_find_patient, medicines_of.
  simpl. step. rewrite Hid. simpl. rewrite Hfind. reflexivity.
Qed.

(** X7: a medicine a doctor creates for an existing patient shows on that
    patient's medicine view, for whoever opens it: the view lists the
    patient's earlier medicines followed by the new one, which carries
    the submitted name, frequency and reason. *)
Theorem medicine_created_then_viewed `{P : Platform}
    (u v : User.t) (id : string) (patient : Patient.t) (n : Number)
    (f : MedicineForm.t) (w : World) :
  User.role u = "doctor" ->
  ObjectId_fromString id = Some (Patient._id patient) ->
  find (fun p => Patient._id p =? Patient._id patient) (DB.patients (db w))
  = Some patient ->
  Number_cast (MedicineForm.dosesRemaining f) = Some n ->
  fst (route_get_patient_medicines (mkRequest (Some v) id)
         (snd (route_post_doctor_patient_medicines
                 (mkRequest (Some u) id) f w)))
  = Val (Render (medicineView patient
           (medicines_of (Patient._id patient) (db w)
            ++ [Medicine.mk (ObjectId_generate (oids w))
                  (Some (MedicineForm.name f)) n
                  (Some (MedicineForm.frequency f))
                  (Some (MedicineForm.reason f))
                  (Some (Patient._id patient))])%list)).
Proof.
  intros Hrole Hid Hfind Hn.
  rewrite (medicine_create_run u id _ n f w Hrole Hid Hn). simpl snd.
  match goal with
  | |- context [route_get_patient_medicines _ ?w1] =>
      rewrite (medicine_view_run v id patient w1 Hid Hfind)
  end.
  simpl. unfold medicines_of. simpl.
  rewrite filter_app. simpl. rewrite String.eqb_refl. reflexivity.
Qed.

Lemma medicine_created_then_viewed_witness :
  fst (route_get_patient_medicines
         (mkRequest (Some Demo.patientUser) Sample.pid1)
         (snd (route_post_doctor_patient_medicines
                 (mkRequest (Some Sample.doctor2) Sample.pid1)
                 Sample.medForm Sample.world)))
  = Val (Render (medicineView Sample.asha
           [Sample.med1;
            Medicine.mk "65f0c0de0000000000000000" (Some "Metformin")
              (Some 30%float) (Some "twice daily") (Some "diabetes")
              (Some Sample.pid1)])).
Proof.
  exact (medicine_created_then_viewed Sample.doctor2 Demo.patientUser
           Sample.pid1 Sample.asha (Some 30%float) Sample.medForm
           Sample.world eq_refl eq_refl eq_refl eq_refl).
Defined.

(** X8: a medicine update that cannot be carried out (the id is not
    well-formed, or no medicine has it, or dosesRemaining does not cast to
    a number) answers 500 and writes nothing: no field of any medicine is
    changed. *)
Theorem medicine_update_failure `{P : Platform}
    (u : User.t) (id : string) (f : MedicineForm.t) (w : World) :
  User.role u = "doctor" ->
  (ObjectId_fromString id = None
   \/ (exists oid, ObjectId_fromString id = Some oid
                   /\ find (fun m => Medicine._id m =? oid)
                           (DB.medicines (db w)) = None)
   \/ Number_cast (MedicineForm.dosesRemaining f) = None) ->
  fst (route_post_doctor_medicine_update (mkRequest (Some u) id) f w)
  = Val (Send 500 "Failure to update Medicine")
  /\ db (snd (route_post_doctor_medicine_update (mkRequest (Some u) id) f w))
     = db w.
Proof.
  intros Hrole Hfail.
  unfold route_post_doctor_medicine_update, isAuth, isDoctor,
    post_doctor_medicine_update, Medicine_findById, Medicine_save,
    Medicine_assign.
  simpl. rewrite Hrole. simpl. step.
  destruct Hfail as [H|[[oid [H1 H2]]|H]].
  - rewrite H. split; reflexivity.
  - rewrite H1. simpl. rewrite H2. split; reflexivity.
  - rewrite H.
    destruct (ObjectId_fromString id) as [oid|]; simpl;
      [|split; reflexivity].
    destruct (find _ (DB.medicines (db w))); simpl; split; reflexivity.
Qed.

Lemma medicine_update_failure_witness :
  fst (route_post_doctor_medicine_update
         (mkRequest (Some Sample.doctor1) Sample.mid1)
         (MedicineForm.mk "Metformin" "thirty" "twice daily" "diabetes")
         Sample.world)
  = Val (Send 500 "Failure to update Medicine")
  /\ db (snd (route_post_doctor_medicine_update
                (mkRequest (Some Sample.doctor1) Sample.mid1)
                (MedicineForm.mk "Metformin" "thirty" "twice daily" "diabetes")
                Sample.world))
     = Sample.store.
Proof.
  apply (medicine_update_failure Sample.doctor1 Sample.mid1
           (MedicineForm.mk "Metformin" "thirty" "twice daily" "diabetes")
           Sample.world).
  - reflexivity.
  - right. right. reflexivity.
Defined.

Lemma NoDup_map_eq {A B} (f : A -> B) (l : list A) (a b : A) :
  NoDup (map f l) -> In a l -> In b l -> f a = f b -> a = b.
Proof.
  induction l as [|x l IH]; simpl; intros Hnd Ha Hb Hf; [contradiction|].
  inversion Hnd as [|? ? Hnotin Hnd']; subst.
  destruct Ha as [Ha|Ha], Hb as [Hb|Hb].
  - congruence.
  - subst x. exfalso. apply Hnotin. rewrite Hf. apply in_map. exact Hb.
  - subst x. exfalso. apply Hnotin. rewrite <- Hf. apply in_map. exact Ha.
  - apply IH; assumption.
Qed.

(** X9: whatever the request, a medicine update keeps the identifier and
    the patient reference of every medicine, in the same order, and
    touches no user, patient or prescription (identifiers being
    unique). *)
Theorem medicine_update_frame `{P : Platform}
    (req : Request) (f : MedicineForm.t) (w : World) :
  NoDup (map Medicine._id (DB.medicines (db w))) ->
  let d' := db (snd (route_post_doctor_medicine_update req f w)) in
  map Medicine._id (DB.medicines d') = map Medicine._id (DB.medicines (db w))
  /\ map Medicine.patient (DB.medicines d')
     = map Medicine.patient (DB.medicines (db w))
  /\ DB.users d' = DB.users (db w)
  /\ DB.patients d' = DB.patients (db w)
  /\ DB.prescriptions d' = DB.prescriptions (db w).
Proof.
  intros Hnd.
  unfold route_post_doctor_medicine_update, isAuth, isDoctor,
    post_doctor_medicine_update, Medicine_findById, Medicine_save,
    Medicine_assign. step.
  destruct (user req) as [u|]; simpl; [|repeat split].
  destruct (User.role u =? "doctor"); simpl; [|repeat split].
  destruct (ObjectId_fromString (params_id req)) as [oid|]; simpl;
    [|repeat split].
  destruct (find _ (DB.medicines (db w))) as [med|] eqn:Hfind; simpl;
    [|repeat split].
  destruct (Number_cast (MedicineForm.dosesRemaining f)) as [n|]; simpl;
    [|repeat split].
  apply find_some in Hfind. destruct Hfind as [Hmed _].
  split; [|split; [|repeat split]].
  - rewrite map_map. apply map_ext_in. intros q _.
    destruct (Medicine._id q =? Medicine._id med) eqn:E; [|reflexivity].
    apply String.eqb_eq in E. simpl. symmetry. exact E.
  - rewrite map_map. apply map_ext_in. intros q Hq.
    destruct (Medicine._id q =? Medicine._id med) eqn:E; [|reflexivity].
    apply String.eqb_eq in E. simpl.
    rewrite (NoDup_map_eq Medicine._id _ q med Hnd Hq Hmed E). reflexivity.
Qed.

Lemma medicine_update_frame_witness :
  map Medicine._id
    (DB.medicines
       (db (snd (route_post_doctor_medicine_update
                   (mkRequest (Some Sample.doctor1) Sample.mid1)
                   Sample.medForm Sample.world)))) = [Sample.mid1]
  /\ map Medicine.patient
       (DB.medicines
          (db (snd (route_post_doctor_medicine_update
                      (mkRequest (Some Sample.doctor1) Sample.mid1)
                      Sample.medForm Sample.world)))) = [Some Sample.pid1]
  /\ DB.users
       (db (snd (route_post_doctor_medicine_update
                   (mkRequest (Some Sample.doctor1) Sample.mid1)
                   Sample.medForm Sample.world)))
     = [Sample.doctor1; Sample.doctor2]
  /\ DB.patients
       (db (snd (route_post_doctor_medicine_update
                   (mkRequest (Some Sample.doctor1) Sample.mid1)
                   Sample.medForm Sample.world)))
     = [Sample.asha; Sample.ravi]
  /\ DB.prescriptions
       (db (snd (route_post_doctor_medicine_update
                   (mkRequest (Some Sample.doctor1) Sample.mid1)
                   Sample.medForm Sample.world)))
     = DB.prescriptions Sample.store.
Proof.
  apply (medicine_update_frame (mkRequest (Some Sample.doctor1) Sample.mid1)
           Sample.medForm Sample.world).
  simpl. constructor; [intros []|constructor].
Defined.

Lemma remove_first_In {A} (f : A -> bool) (l : list A) (m : A) :
  In m (remove_first f l) -> In m l.
Proof.
  induction l as [|x l IH]; simpl; [tauto|].
  destruct (f x); simpl; [tauto|]. intros [H|H]; [left; exact H|].
  right. apply IH. exact H.
Qed.

Lemma remove_first_keep {A} (f : A -> bool) (l : list A) (m : A) :
  f m = false -> In m l -> In m (remove_first f l).
Proof.
  intros Hm. induction l as [|x l IH]; simpl; [tauto|].
  intros [H|H].
  - subst x. rewrite Hm. left. reflexivity.
  - destruct (f x); [exact H|]. right. apply IH. exact H.
Qed.

Lemma remove_first_none {A} (f : A -> bool) (l : list A) :
  find f l = None -> remove_first f l = l.
Proof.
  induction l as [|x l IH]; simpl; [reflexivity|].
  destruct (f x); [discriminate|]. intros H. rewrite IH; [reflexivity|exact H].
Qed.

(** The medicine view renders stored medicines only. *)
Lemma medicine_view_stored `{P : Platform}
    (req : Request) (w w' : World) (patient : Patient.t)
    (meds : list Medicine.t) :
  route_get_patient_medicines req w
  = (Val (Render (medicineView patient meds)), w') ->
  forall m, In m meds -> In m (DB.medicines (db w)).
Proof.
  unfold route_get_patient_medicines, isAuth, get_patient_medicines,
    Patient_findById, Medicine_find_patient. step.
  destruct (user req); [|discriminate].
  destruct (ObjectId_fromString (params_id req)); simpl; [|discriminate].
  destruct (find _ (DB.patients (db w))); simpl; [|discriminate].
  intros H m Hm. inversion H; subst.
  apply filter_In in Hm. exact (proj1 Hm).
Qed.

(** What the delete route does with a well-formed id. *)
Lemma medicine_delete_run `{P : Platform}
    (u : User.t) (id : string) (oid : ObjectId) (w : World) :
  User.role u = "doctor" ->
  ObjectId_fromString id = Some oid ->
  route_post_doctor_medicine_delete (mkRequest (Some u) id) w
  = (Val (Redirect "/doctor/patient/${req.params.id}/medicines"),
     mkWorld
       (DB.with_medicines (remove_first (fun m => Medicine._id m =? oid))
          (db w))
       (oids w) (now w) (flash w)
       (Call.Medicine_findByIdAndDelete :: calls w)).
Proof.
  intros Hrole Hid.
  unfold route_post_doctor_medicine_delete, isAuth, isDoctor,
    post_doctor_medicine_delete, Medicine_findByIdAndDelete.
  simpl. rewrite Hrole. simpl. step. rewrite Hid. reflexivity.
Qed.

(** X10: after a doctor deletes a medicine by a well-formed id
    (identifiers being unique), the stored medicines are exactly the
    earlier ones with another id; no medicine view opened afterwards
    shows a medicine with that id; deleting the same id again changes
    nothing; and no user, patient or prescription is touched. *)
Theorem medicine_delete_effects `{P : Platform}
    (u : User.t) (id : string) (oid : ObjectId) (w : World) :
  User.role u = "doctor" ->
  ObjectId_fromString id = Some oid ->
  NoDup (map Medicine._id (DB.medicines (db w))) ->
  let w1 := snd (route_post_doctor_medicine_delete (mkRequest (Some u) id) w) in
  (forall m, In m (DB.medicines (db w1))
             <-> In m (DB.medicines (db w)) /\ Medicine._id m <> oid)
  /\ (forall req2 patient meds w2,
         route_get_patient_medicines req2 w1
         = (Val (Render (medicineView patient meds)), w2) ->
         forall m, In m meds -> Medicine._id m <> oid)
  /\ db (snd (route_post_doctor_medicine_delete (mkRequest (Some u) id) w1))
     = db w1
  /\ DB.users (db w1) = DB.users (db w)
  /\ DB.patients (db w1) = DB.patients (db w)
  /\ DB.prescriptions (db w1) = DB.prescriptions (db w).
Proof.
  intros Hrole Hid Hnd.
  rewrite (medicine_delete_run u id oid w Hrole Hid). simpl snd.
  set (hit := fun m : Medicine.t => Medicine._id m =? oid).
  assert (Hgone : forall m, In m (remove_first hit (DB.medicines (db w))) ->
                            Medicine._id m <> oid).
  { intros m Hm Heq.
    pose proof (find_none _ _ (find_remove_first _ oid Hnd) m Hm) as Hn.
    simpl in Hn. rewrite Heq, String.eqb_refl in Hn. discriminate. }
  split; [|split; [|split; [|repeat split]]].
  - intros m. simpl. split.
    + intros Hm. split; [exact (remove_first_In _ _ _ Hm)|exact (Hgone m Hm)].
    + intros [Hm Hne]. apply remove_first_keep; [|exact Hm].
      unfold hit. apply String.eqb_neq. exact Hne.
  - intros req2 patient meds w2 Hview m Hm.
    apply Hgone. exact (medicine_view_stored _ _ _ _ _ Hview m Hm).
  - match goal with
    | |- context [route_post_doctor_medicine_delete _ ?w1] =>
        rewrite (medicine_delete_run u id oid w1 Hrole Hid)
    end.
    simpl. unfold DB.with_medicines. simpl. f_equal.
    apply remove_first_none. apply find_remove_first. exact Hnd.
Qed.

Lemma medicine_delete_effects_witness :
  (forall m,
      In m (DB.medicines
              (db (snd (route_post_doctor_medicine_delete
                          (mkRequest (Some Sample.doctor2) Sample.mid1)
                          Sample.world))))
      <-> In m [Sample.med1] /\ Medicine._id m <> Sample.mid1)
  /\ (forall req2 patient meds w2,
         route_get_patient_medicines req2
           (snd (route_post_doctor_medicine_delete
                   (mkRequest (Some Sample.doctor2) Sample.mid1)
                   Sample.world))
         = (Val (Render (medicineView patient meds)), w2) ->
         forall m, In m meds -> Medicine._id m <> Sample.mid1)
  /\ db (snd (route_post_doctor_medicine_delete
                (mkRequest (Some Sample.doctor2) Sample.mid1)
                (snd (route_post_doctor_medicine_delete
                        (mkRequest (Some Sample.doctor2) Sample.mid1)
                        Sample.world))))
     = db (snd (route_post_doctor_medicine_delete
                  (mkRequest (Some Sample.doctor2) Sample.mid1)
                  Sample.world))
  /\ DB.users
       (db (snd (route_post_doctor_medicine_delete
                   (mkRequest (Some Sample.doctor2) Sample.mid1)
                   Sample.world))) = [Sample.doctor1; Sample.doctor2]
  /\ DB.patients
       (db (snd (route_post_doctor_medicine_delete
                   (mkRequest (Some Sample.doctor2) Sample.mid1)
                   Sample.world))) = [Sample.asha; Sample.ravi]
  /\ DB.prescriptions
       (db (snd (route_post_doctor_medicine_delete
                   (mkRequest (Some Sample.doctor2) Sample.mid1)
                   Sample.world))) = DB.prescriptions Sample.store.
Proof.
  apply (medicine_delete_effects Sample.doctor2 Sample.mid1 Sample.mid1
           Sample.world).
  - reflexivity.
  - reflexivity.
  - simpl. constructor; [intros []|constructor].
Defined.

(** ** What a request can do to each collection *)

(** Users: a request adds at most one user, at the end, whose email was
    not registered. *)
Lemma serve_users `{P : Platform} (a : Action) (w : World) :
  DB.users (db (snd (serve a w))) = DB.users (db w)
  \/ exists u,
       DB.users (db (snd (serve a w))) = (DB.users (db w) ++ [u])%list
       /\ find (fun x => User.email x =? User.email u) (DB.users (db w))
          = None.
Proof.
  destruct a as [f|req|req|req|req f|req f|req|req|req f|req]; simpl.
  - unfold post_signup, signup_create_user, User_findOne, Patient_findOne,
      Patient_create, new_User, User_save. step.
    branches; try (left; reflexivity);
      (right; eexists; split; [reflexivity|simpl; assumption]).
  - unfold route_get_patient, isAuth, get_patient, Patient_findById. step.
    branches; left; reflexivity.
  - unfold route_get_doctor_dashboard, isAuth, isDoctor, get_doctor_dashboard,
      Patient_findById_oid, Patient_save, Medicine_find_in. step.
    branches; left; reflexivity.
  - unfold route_get_patient_medicines, isAuth, get_patient_medicines,
      Patient_findById, Medicine_find_patient. step.
    branches; left; reflexivity.
  - unfold route_post_doctor_patient_medicines, isAuth, isDoctor,
      post_doctor_patient_medicines, new_Medicine, Medicine_save_new,
      Medicine_assign. step.
    branches; left; reflexivity.
  - unfold route_post_doctor_medicine_update, isAuth, isDoctor,
      post_doctor_medicine_update, Medicine_findById, Medicine_save,
      Medicine_assign. step.
    branches; left; reflexivity.
  - unfold route_post_doctor_medicine_delete, isAuth, isDoctor,
      post_doctor_medicine_delete, Medicine_findByIdAndDelete. step.
    branches; left; reflexivity.
  - unfold route_get_doctor_patient_prescriptions, isAuth, isDoctor,
      get_doctor_patient_prescriptions, ObjectId_isValid, Patient_findById,
      Prescription_find. step.
    branches; left; reflexivity.
  - unfold route_post_doctor_patient_prescriptions, isAuth, isDoctor,
      post_doctor_patient_prescriptions, new_Prescription, Prescription_save.
    step.
    branches; left; reflexivity.
  - unfold route_get_doctor_patient_ai_insights, isAuth, isDoctor,
      get_doctor_patient_ai_insights, Patient_findById, Prescription_find.
    step.
    branches; left; reflexivity.
Qed.

(** Prescriptions: a request adds at most one, at the end. *)
Lemma serve_prescriptions `{P : Platform} (a : Action) (w : World) :
  DB.prescriptions (db (snd (serve a w))) = DB.prescriptions (db w)
  \/ exists r,
       DB.prescriptions (db (snd (serve a w)))
       = (DB.prescriptions (db w) ++ [r])%list.
Proof.
  destruct a as [f|req|req|req|req f|req f|req|req|req f|req]; simpl.
  - unfold post_signup, signup_create_user, User_findOne, Patient_findOne,
      Patient_create, new_User, User_save. step.
    branches; left; reflexivity.
  - unfold route_get_patient, isAuth, get_patient, Patient_findById. step.
    branches; left; reflexivity.
  - unfold route_get_doctor_dashboard, isAuth, isDoctor, get_doctor_dashboard,
      Patient_findById_oid, Patient_save, Medicine_find_in. step.
    branches; left; reflexivity.
  - unfold route_get_patient_medicines, isAuth, get_patient_medicines,
      Patient_findById, Medicine_find_patient. step.
    branches; left; reflexivity.
  - unfold route_post_doctor_patient_medicines, isAuth, isDoctor,
      post_doctor_patient_medicines, new_Medicine, Medicine_save_new,
      Medicine_assign. step.
    branches; left; reflexivity.
  - unfold route_post_doctor_medicine_update, isAuth, isDoctor,
      post_doctor_medicine_update, Medicine_findById, Medicine_save,
      Medicine_assign. step.
    branches; left; reflexivity.
  - unfold route_post_doctor_medicine_delete, isAuth, isDoctor,
      post_doctor_medicine_delete, Medicine_findByIdAndDelete. step.
    branches; left; reflexivity.
  - unfold route_get_doctor_patient_prescriptions, isAuth, isDoctor,
      get_doctor_patient_prescriptions, ObjectId_isValid, Patient_findById,
      Prescription_find. step.
    branches; left; reflexivity.
  - unfold route_post_doctor_patient_prescriptions, isAuth, isDoctor,
      post_doctor_patient_prescriptions, new_Prescription, Prescription_save.
    step.
    branches; try (left; reflexivity); right; eexists; reflexivity.
  - unfold route_get_doctor_patient_ai_insights, isAuth, isDoctor,
      get_doctor_patient_ai_insights, Patient_findById, Prescription_find.
    step.
    branches; left; reflexivity.
Qed.

(** Patients: a request leaves them as they are, or adds one at the end
    (fresh id, unused code, no medicines, no doctor), or gives an
    unassigned patient its doctor. *)
Lemma serve_patients_shape `{P : Platform} (a : Action) (w : World) :
  DB.patients (db (snd (serve a w))) = DB.patients (db w)
  \/ (exists p,
        DB.patients (db (snd (serve a w))) = (DB.patients (db w) ++ [p])%list
        /\ Patient._id p = ObjectId_generate (oids w)
        /\ Patient.assignedDoctor p = None
        /\ find (fun q => Patient.patientCode q =? Patient.patientCode p)
                (DB.patients (db w)) = None)
  \/ (exists p0 d,
        find (fun q => Patient._id q =? Patient._id p0) (DB.patients (db w))
        = Some p0
        /\ Patient.assignedDoctor p0 = None
        /\ DB.patients (db (snd (serve a w)))
           = map (fun q => if Patient._id q =? Patient._id p0
                           then Patient.set_assignedDoctor d p0 else q)
                 (DB.patients (db w))).
Proof.
  destruct a as [f|req|req|req|req f|req f|req|req|req f|req]; simpl.
  - unfold post_signup, signup_create_user, User_findOne, Patient_findOne,
      Patient_create, new_User, User_save. step.
    branches; try (left; reflexivity);
      (right; left; eexists; split; [reflexivity|];
       simpl; repeat split; assumption).
  - unfold route_get_patient, isAuth, get_patient, Patient_findById. step.
    branches; left; reflexivity.
  - unfold route_get_doctor_dashboard, isAuth, isDoctor, get_doctor_dashboard,
      Patient_findById_oid, Patient_save, Medicine_find_in. step.
    branches; try (left; reflexivity).
    right. right.
    match goal with
    | H : find _ (DB.patients (db w)) = Some ?p0 |- _ =>
        exists p0; eexists;
        pose proof (find_id_some _ _ _ H) as [_ Hid]; rewrite Hid;
        split; [exact H|split; [assumption|reflexivity]]
    end.
  - unfold route_get_patient_medicines, isAuth, get_patient_medicines,
      Patient_findById, Medicine_find_patient. step.
    branches; left; reflexivity.
  - unfold route_post_doctor_patient_medicines, isAuth, isDoctor,
      post_doctor_patient_medicines, new_Medicine, Medicine_save_new,
      Medicine_assign. step.
    branches; left; reflexivity.
  - unfold route_post_doctor_medicine_update, isAuth, isDoctor,
      post_doctor_medicine_update, Medicine_findById, Medicine_save,
      Medicine_assign. step.
    branches; left; reflexivity.
  - unfold route_post_doctor_medicine_delete, isAuth, isDoctor,
      post_doctor_medicine_delete, Medicine_findByIdAndDelete. step.
    branches; left; reflexivity.
  - unfold route_get_doctor_patient_prescriptions, isAuth, isDoctor,
      get_doctor_patient_prescriptions, ObjectId_isValid, Patient_findById,
      Prescription_find. step.
    branches; left; reflexivity.
  - unfold route_post_doctor_patient_prescriptions, isAuth, isDoctor,
      post_doctor_patient_prescriptions, new_Prescription, Prescription_save.
    step.
    branches; left; reflexivity.
  - unfold route_get_doctor_patient_ai_insights, isAuth, isDoctor,
      get_doctor_patient_ai_insights, Patient_findById, Prescription_find.
    step.
    branches; left; reflexivity.
Qed.

(** ** Invariants of every sequence of requests *)

Lemma find_app_some {A} (f : A -> bool) (l m : list A) (x : A) :
  find f l = Some x -> find f (l ++ m) = Some x.
Proof.
  induction l as [|y l IH]; simpl; [discriminate|].
  destruct (f y); [tauto|exact IH].
Qed.

Lemma find_map_other {A} (key : A -> string) (k0 id : string) (new : A)
    (l : list A) :
  key new = k0 -> k0 <> id ->
  find (fun q => key q =? id) (map (fun q => if key q =? k0 then new else q) l)
  = find (fun q => key q =? id) l.
Proof.
  intros Hnew Hne. induction l as [|y l IH]; simpl; [reflexivity|].
  destruct (key y =? k0) eqn:E.
  - apply String.eqb_eq in E.
    assert (H1 : (key new =? id) = false)
      by (apply String.eqb_neq; congruence).
    assert (H2 : (key y =? id) = false)
      by (apply String.eqb_neq; congruence).
    rewrite H1, H2. exact IH.
  - destruct (key y =? id); [reflexivity|exact IH].
Qed.

Lemma NoDup_snoc {A} (l : list A) (x : A) :
  NoDup l -> ~ In x l -> NoDup (l ++ [x]).
Proof.
  induction l as [|y l IH]; simpl; intros Hnd Hx.
  - constructor; [intros []|constructor].
  - inversion Hnd as [|? ? Hy Hnd']; subst. constructor.
    + intros Hin. apply in_app_or in Hin. destruct Hin as [Hin|[Hin|[]]].
      * exact (Hy Hin).
      * apply Hx. left. symmetry. exact Hin.
    + apply IH; [exact Hnd'|]. intros Hin. apply Hx. right. exact Hin.
Qed.

(** X11: once a patient has an assigned doctor, no sequence of requests
    to these routes changes that patient's stored record: a second doctor
    who opens the dashboard does not take the patient over. *)
Theorem assignment_is_permanent `{P : Platform}
    (pid d : ObjectId) (p : Patient.t) (acts : list Action) (w : World) :
  find (fun q => Patient._id q =? pid) (DB.patients (db w)) = Some p ->
  Patient.assignedDoctor p = Some d ->
  find (fun q => Patient._id q =? pid) (DB.patients (db (serve_all acts w)))
  = Some p.
Proof.
  intros Hfind Hd. revert w Hfind.
  induction acts as [|a acts IH]; intros w Hfind; simpl; [exact Hfind|].
  apply IH.
  destruct (serve_patients_shape a w)
    as [Hsame|[[q [Happ _]]|[p0 [d0 [Hp0 [Hnone Hmap]]]]]].
  - rewrite Hsame. exact Hfind.
  - rewrite Happ. apply find_app_some. exact Hfind.
  - rewrite Hmap.
    assert (Hne : Patient._id p0 <> pid).
    { intros Heq. rewrite Heq in Hp0. rewrite Hp0 in Hfind.
      inversion Hfind. subst p0. rewrite Hd in Hnone. discriminate. }
    rewrite (find_map_other Patient._id (Patient._id p0) pid);
      [exact Hfind|reflexivity|exact Hne].
Qed.

Lemma assignment_is_permanent_witness :
  find (fun q => Patient._id q =? Sample.pid2)
       (DB.patients
          (db (serve_all
                 [GetDoctorDashboard (mkRequest (Some Sample.doctor1) "");
                  GetDoctorDashboard
                    (mkRequest
                       (Some (User.mk Sample.uid1 "doc1@clinic.example"
                                "$2b$pw1" "doctor" (Some Sample.pid2))) "")]
                 Sample.world)))
  = Some Sample.ravi.
Proof.
  apply (assignment_is_permanent Sample.pid2 Sample.uid2 Sample.ravi
           [GetDoctorDashboard (mkRequest (Some Sample.doctor1) "");
            GetDoctorDashboard
              (mkRequest
                 (Some (User.mk Sample.uid1 "doc1@clinic.example" "$2b$pw1"
                          "doctor" (Some Sample.pid2))) "")]
           Sample.world); reflexivity.
Defined.

(** X12: if no two stored users share an email, then after any sequence
    of requests still no two do: signup is the only route that adds a
    user and it refuses a registered email. *)
Theorem emails_stay_unique `{P : Platform} (acts : list Action) (w : World) :
  NoDup (map User.email (DB.users (db w))) ->
  NoDup (map User.email (DB.users (db (serve_all acts w)))).
Proof.
  revert w. induction acts as [|a acts IH]; intros w Hnd; simpl; [exact Hnd|].
  apply IH.
  destruct (serve_users a w) as [Hsame|[u [Happ Hnew]]].
  - rewrite Hsame. exact Hnd.
  - rewrite Happ, map_app. simpl. apply NoDup_snoc; [exact Hnd|].
    intros Hin. apply in_map_iff in Hin. destruct Hin as [x [Hx Hin]].
    pose proof (find_none _ _ Hnew x Hin) as Hn. simpl in Hn.
    rewrite Hx, String.eqb_refl in Hn. discriminate.
Qed.

Lemma emails_stay_unique_witness :
  NoDup (map User.email
           (DB.users
              (db (serve_all [PostSignup Demo.minaForm;
                              PostSignup Demo.minaForm] Sample.world)))).
Proof.
  apply (emails_stay_unique [PostSignup Demo.minaForm;
                             PostSignup Demo.minaForm] Sample.world).
  simpl. constructor.
  - intros [H|[]]. discriminate H.
  - constructor; [intros []|constructor].
Defined.

(** X13: no sequence of requests removes or rewrites a user or a
    prescription, and none removes a patient: the users and the
    prescriptions stored before are a prefix of those stored after, and
    so are the patients' identifiers. *)
Theorem store_grows_only `{P : Platform} (acts : list Action) (w : World) :
  (exists more,
      DB.users (db (serve_all acts w)) = (DB.users (db w) ++ more)%list)
  /\ (exists more,
         DB.prescriptions (db (serve_all acts w))
         = (DB.prescriptions (db w) ++ more)%list)
  /\ (exists more,
         map Patient._id (DB.patients (db (serve_all acts w)))
         = (map Patient._id (DB.patients (db w)) ++ more)%list).
Proof.
  revert w. induction acts as [|a acts IH]; intros w; simpl.
  - repeat split; exists []; rewrite app_nil_r; reflexivity.
  - destruct (IH (snd (serve a w))) as [[mu Hu] [[mr Hr] [mp Hp]]].
    split; [|split].
    + destruct (serve_users a w) as [Hsame|[u [Happ _]]].
      * exists mu. rewrite Hu, Hsame. reflexivity.
      * exists ([u] ++ mu)%list. rewrite Hu, Happ, <- app_assoc. reflexivity.
    + destruct (serve_prescriptions a w) as [Hsame|[r Happ]].
      * exists mr. rewrite Hr, Hsame. reflexivity.
      * exists ([r] ++ mr)%list. rewrite Hr, Happ, <- app_assoc. reflexivity.
    + destruct (serve_patients_shape a w)
        as [Hsame|[[q [Happ _]]|[p0 [d0 [_ [_ Hmap]]]]]].
      * exists mp. rewrite Hp, Hsame. reflexivity.
      * exists ([Patient._id q] ++ mp)%list.
        rewrite Hp, Happ, map_app, <- app_assoc. reflexivity.
      * exists mp. rewrite Hp, Hmap, map_map. f_equal.
        apply map_ext. intros x.
        destruct (Patient._id x =? Patient._id p0) eqn:E; [|reflexivity].
        apply String.eqb_eq in E. simpl. symmetry. exact E.
Qed.

(** ** Signup, start to end *)

Lemma find_snoc_none {A} (f : A -> bool) (l : list A) (x : A) :
  find f l = None -> find f (l ++ [x]) = if f x then Some x else None.
Proof.
  induction l as [|y l IH]; simpl; [reflexivity|].
  destruct (f y); [discriminate|exact IH].
Qed.

(** A signup with a registered email, whatever else it submits. *)
Lemma signup_email_taken `{P : Platform}
    (f : SignupForm.t) (w : World) (x : User.t) :
  find (fun u => User.email u =? SignupForm.email f) (DB.users (db w))
  = Some x ->
  post_signup f w
  = (Val (Redirect "/signup"),
     mkWorld (db w) (oids w) (now w)
       (("error", "Email already registered") :: flash w)
       (Call.User_findOne :: calls w)).
Proof.
  intros H. unfold post_signup, User_findOne. step. rewrite H. reflexivity.
Qed.

(** What a signup that ends on /login has done. *)
Lemma signup_success_inv `{P : Platform} (f : SignupForm.t) (w : World) :
  fst (post_signup f w) = Val (Redirect "/login") ->
  find (fun u => User.email u =? SignupForm.email f) (DB.users (db w)) = None
  /\ exists u p,
       DB.users (db (snd (post_signup f w))) = (DB.users (db w) ++ [u])%list
       /\ User.email u = SignupForm.email f
       /\ User.password u = hashPassword (SignupForm.password f)
       /\ User.role u = SignupForm.role f
       /\ User.patient u = Some (Patient._id p)
       /\ In p (DB.patients (db (snd (post_signup f w))))
       /\ Patient.patientCode p = SignupForm.patientId f.
Proof.
  unfold post_signup, signup_create_user, User_findOne, Patient_findOne,
    Patient_create, new_User, User_save. step.
  branches; intros H; try discriminate H;
    (split; [reflexivity|]).
  - eexists.
    exists (Patient.mk (ObjectId_generate (oids w))
              (SignupForm.patientId f) (Some (SignupForm.name f))
              None None None None None [] [] [] None None None).
    split; [reflexivity|]. simpl. repeat split.
    apply in_or_app. right. left. reflexivity.
  - match goal with
    | Hp : find _ (DB.patients (db w)) = Some ?p |- _ =>
        eexists; exists p; split; [reflexivity|];
        apply find_some in Hp; destruct Hp as [Hin Hcode];
        apply String.eqb_eq in Hcode; simpl; repeat split; assumption
    end.
Qed.

(** X14: once a signup has succeeded, every later signup with the same
    email is refused with Email already registered, whatever role, name,
    password or patientId it submits, and writes nothing. *)
Theorem signup_then_same_email `{P : Platform}
    (f f2 : SignupForm.t) (w : World) :
  fst (post_signup f w) = Val (Redirect "/login") ->
  SignupForm.email f2 = SignupForm.email f ->
  fst (post_signup f2 (snd (post_signup f w))) = Val (Redirect "/signup")
  /\ flash (snd (post_signup f2 (snd (post_signup f w))))
     = ("error", "Email already registered")
         :: flash (snd (post_signup f w))
  /\ db (snd (post_signup f2 (snd (post_signup f w))))
     = db (snd (post_signup f w)).
Proof.
  intros Hok Hemail.
  destruct (signup_success_inv f w Hok)
    as [Hnone [u [p [Husers [Hu _]]]]].
  assert (Hfind : find (fun x => User.email x =? SignupForm.email f2)
                       (DB.users (db (snd (post_signup f w)))) = Some u).
  { rewrite Husers, Hemail, (find_snoc_none _ _ _ Hnone), Hu,
      String.eqb_refl. reflexivity. }
  rewrite (signup_email_taken f2 _ u Hfind). repeat split.
Qed.

Lemma signup_then_same_email_witness :
  fst (post_signup
         (SignupForm.mk "mina@clinic.example" "other" "doctor"
            "Dr. Mina" "PAT-ASHA01")
         (snd (post_signup Demo.minaForm Sample.world)))
  = Val (Redirect "/signup")
  /\ flash (snd (post_signup
                   (SignupForm.mk "mina@clinic.example" "other" "doctor"
                      "Dr. Mina" "PAT-ASHA01")
                   (snd (post_signup Demo.minaForm Sample.world))))
     = [("error", "Email already registered")]
  /\ db (snd (post_signup
                (SignupForm.mk "mina@clinic.example" "other" "doctor"
                   "Dr. Mina" "PAT-ASHA01")
                (snd (post_signup Demo.minaForm Sample.world))))
     = db (snd (post_signup Demo.minaForm Sample.world)).
Proof.
  assert (Hok : fst (post_signup Demo.minaForm Sample.world)
                = Val (Redirect "/login")) by reflexivity.
  exact (signup_then_same_email Demo.minaForm
           (SignupForm.mk "mina@clinic.example" "other" "doctor"
              "Dr. Mina" "PAT-ASHA01")
           Sample.world Hok eq_refl).
Defined.

(** X15: a signup whose user fails validation when saved, after the
    Patient of a patient-role signup has been created, reports Signup
    failed and leaves that Patient stored with no User: the two writes
    are not undone together. *)
Theorem signup_orphan_patient `{P : Platform} (f : SignupForm.t) (w : World) :
  find (fun u => User.email u =? SignupForm.email f) (DB.users (db w)) = None ->
  SignupForm.role f = "patient" ->
  find (fun p => Patient.patientCode p =? SignupForm.patientId f)
       (DB.patients (db w)) = None ->
  User_validate
    (User.mk (ObjectId_generate (S (oids w))) (SignupForm.email f)
       (SignupForm.password f) (SignupForm.role f)
       (Some (ObjectId_generate (oids w)))) = false ->
  fst (post_signup f w) = Val (Redirect "/signup")
  /\ flash (snd (post_signup f w)) = ("error", "Signup failed") :: flash w
  /\ DB.users (db (snd (post_signup f w))) = DB.users (db w)
  /\ DB.patients (db (snd (post_signup f w)))
     = (DB.patients (db w)
        ++ [Patient.mk (ObjectId_generate (oids w)) (SignupForm.patientId f)
              (Some (SignupForm.name f)) None None None None None
              [] [] [] None None None])%list.
Proof.
  intros Hemail Hrole Hcode Hbad.
  unfold post_signup, signup_create_user, User_findOne, Patient_findOne,
    Patient_create, new_User, User_save. step.
  rewrite Hemail. simpl. rewrite Hrole in *. simpl.
  rewrite Hcode. simpl. rewrite existsb_find, Hcode. simpl.
  rewrite Hbad. simpl. repeat split.
Qed.

Lemma signup_orphan_patient_witness :
  fst (@post_signup Demo.strict
         (SignupForm.mk "mina@clinic.example" "" "patient" "Mina"
            "PAT-MINA03") Sample.world)
  = Val (Redirect "/signup")
  /\ flash (snd (@post_signup Demo.strict
                   (SignupForm.mk "mina@clinic.example" "" "patient" "Mina"
                      "PAT-MINA03") Sample.world))
     = [("error", "Signup failed")]
  /\ DB.users (db (snd (@post_signup Demo.strict
                          (SignupForm.mk "mina@clinic.example" "" "patient"
                             "Mina" "PAT-MINA03") Sample.world)))
     = [Sample.doctor1; Sample.doctor2]
  /\ DB.patients (db (snd (@post_signup Demo.strict
                             (SignupForm.mk "mina@clinic.example" ""
                                "patient" "Mina" "PAT-MINA03")
                             Sample.world)))
     = [Sample.asha; Sample.ravi;
        Patient.mk "65f0c0de0000000000000000" "PAT-MINA03" (Some "Mina")
          None None None None None [] [] [] None None None].
Proof.
  exact (@signup_orphan_patient Demo.strict
           (SignupForm.mk "mina@clinic.example" "" "patient" "Mina"
              "PAT-MINA03") Sample.world eq_refl eq_refl eq_refl eq_refl).
Defined.

(** X16: a signup whose role is not patient never creates a Patient,
    whatever its outcome; when it succeeds, the new User (with the
    submitted role, doctor or not, and the hashed password) refers to the
    stored Patient that has the submitted code. *)
Theorem signup_links_existing_patient `{P : Platform}
    (f : SignupForm.t) (w : World) :
  SignupForm.role f <> "patient" ->
  DB.patients (db (snd (post_signup f w))) = DB.patients (db w)
  /\ (fst (post_signup f w) = Val (Redirect "/login") ->
      exists p,
        find (fun q => Patient.patientCode q =? SignupForm.patientId f)
             (DB.patients (db w)) = Some p
        /\ DB.users (db (snd (post_signup f w)))
           = (DB.users (db w)
              ++ [User.mk (ObjectId_generate (oids w)) (SignupForm.email f)
                    (hashPassword (SignupForm.password f))
                    (SignupForm.role f) (Some (Patient._id p))])%list).
Proof.
  intros Hrole. apply String.eqb_neq in Hrole.
  unfold post_signup, signup_create_user, User_findOne, Patient_findOne,
    Patient_create, new_User, User_save. step.
  rewrite Hrole.
  destruct (find _ (DB.users (db w))); simpl;
    [split; [reflexivity|discriminate]|].
  destruct (find _ (DB.patients (db w))) as [p|]; simpl;
    [|split; [reflexivity|discriminate]].
  destruct (User_validate _); simpl; (split; [reflexivity|]);
    [|discriminate].
  intros _. exists p. split; reflexivity.
Qed.

Lemma signup_links_existing_patient_witness :
  DB.patients
    (db (snd (post_signup
                (SignupForm.mk "doc3@clinic.example" "secret" "doctor"
                   "Dr. Rao" "PAT-RAVI02") Sample.world)))
  = [Sample.asha; Sample.ravi]
  /\ exists p,
       find (fun q => Patient.patientCode q =? "PAT-RAVI02")
            [Sample.asha; Sample.ravi] = Some p
       /\ DB.users
            (db (snd (post_signup
                        (SignupForm.mk "doc3@clinic.example" "secret"
                           "doctor" "Dr. Rao" "PAT-RAVI02") Sample.world)))
          = [Sample.doctor1; Sample.doctor2;
             User.mk "65f0c0de0000000000000000" "doc3@clinic.example"
               "$2b$secret" "doctor" (Some (Patient._id p))].
Proof.
  destruct (signup_links_existing_patient
              (SignupForm.mk "doc3@clinic.example" "secret" "doctor"
                 "Dr. Rao" "PAT-RAVI02") Sample.world) as [Hframe Hlink].
  - discriminate.
  - split; [exact Hframe|]. apply Hlink. reflexivity.
Defined.

(** ** Login and the session *)

(** What POST /login does for a stored user with the right password. *)
Lemma login_accepts `{P : Platform} `{Pw : Passwords}
    (email password : string) (s : Session) (w : World) (u : User.t) :
  email <> "" -> password <> "" ->
  find (fun x => User.email x =? email) (DB.users (db w)) = Some u ->
  comparePassword password (User.password u) = true ->
  post_login email password s w
  = (Val (login_redirect u, Some (serializeUser u)),
     mkWorld (db w) (oids w) (now w) (flash w)
       (Call.User_findOne :: calls w)).
Proof.
  intros He Hp Hfind Hmatch.
  apply String.eqb_neq in He. apply String.eqb_neq in Hp.
  unfold post_login, authenticate_local, localStrategy, User_findOne.
  rewrite He, Hp. step. rewrite Hfind. simpl. rewrite Hmatch. reflexivity.
Qed.

(** X17: POST /login never writes the store.  It puts a user in the
    session only if that user is stored under the submitted email and the
    stored hash matches the submitted password; otherwise it redirects to
    /login with one flash message and leaves the session as it was. *)
Theorem login_sound `{P : Platform} `{Pw : Passwords}
    (email password : string) (s : Session) (w : World) :
  db (snd (post_login email password s w)) = db w
  /\ ((exists u,
         In u (DB.users (db w))
         /\ User.email u = email
         /\ comparePassword password (User.password u) = true
         /\ fst (post_login email password s w)
            = Val (login_redirect u, Some (User._id u)))
      \/ (exists message,
            fst (post_login email password s w) = Val (Redirect "/login", s)
            /\ flash (snd (post_login email password s w))
               = ("error", message) :: flash w)).
Proof.
  unfold post_login, authenticate_local, localStrategy, User_findOne.
  destruct ((email =? "") || (password =? "")); step.
  - split; [reflexivity|]. right. eexists. split; reflexivity.
  - destruct (find _ (DB.users (db w))) as [u|] eqn:Hfind; simpl.
    + destruct (comparePassword password (User.password u)) eqn:Hmatch; simpl.
      * split; [reflexivity|]. left. exists u.
        apply find_some in Hfind. destruct Hfind as [Hin Heq].
        apply String.eqb_eq in Heq. repeat split; assumption.
      * split; [reflexivity|]. right. eexists. split; reflexivity.
    + split; [reflexivity|]. right. eexists. split; reflexivity.
Qed.

(** X18: after a signup has succeeded, a login with the same email and
    password succeeds (the hash of a password matching that password):
    the session holds the new user, whose role is the submitted one and
    whose patient reference is the Patient with the submitted code. *)
Theorem signup_then_login `{P : Platform} `{Pw : Passwords}
    (f : SignupForm.t) (s : Session) (w : World) :
  fst (post_signup f w) = Val (Redirect "/login") ->
  SignupForm.email f <> "" ->
  SignupForm.password f <> "" ->
  comparePassword (SignupForm.password f)
                  (hashPassword (SignupForm.password f)) = true ->
  exists u p,
    fst (post_login (SignupForm.email f) (SignupForm.password f) s
           (snd (post_signup f w)))
    = Val (login_redirect u, Some (serializeUser u))
    /\ In u (DB.users (db (snd (post_signup f w))))
    /\ User.role u = SignupForm.role f
    /\ User.patient u = Some (Patient._id p)
    /\ In p (DB.patients (db (snd (post_signup f w))))
    /\ Patient.patientCode p = SignupForm.patientId f.
Proof.
  intros Hok He Hp Hlaw.
  destruct (signup_success_inv f w Hok)
    as [Hnone [u [p [Husers [Hu [Hpw [Hrole [Hpat [Hin Hcode]]]]]]]]].
  exists u, p.
  assert (Hfind : find (fun x => User.email x =? SignupForm.email f)
                       (DB.users (db (snd (post_signup f w)))) = Some u).
  { rewrite Husers, (find_snoc_none _ _ _ Hnone), Hu, String.eqb_refl.
    reflexivity. }
  rewrite (login_accepts _ _ s _ u He Hp Hfind);
    [|rewrite Hpw; exact Hlaw].
  repeat split; try assumption.
  rewrite Husers. apply in_or_app. right. left. reflexivity.
Qed.

Lemma signup_then_login_witness :
  exists u p,
    fst (post_login "mina@clinic.example" "secret" None
           (snd (post_signup Demo.minaForm Sample.world)))
    = Val (login_redirect u, Some (serializeUser u))
    /\ In u (DB.users (db (snd (post_signup Demo.minaForm Sample.world))))
    /\ User.role u = "patient"
    /\ User.patient u = Some (Patient._id p)
    /\ In p (DB.patients (db (snd (post_signup Demo.minaForm Sample.world))))
    /\ Patient.patientCode p = "PAT-MINA03".
Proof.
  assert (Hok : fst (post_signup Demo.minaForm Sample.world)
                = Val (Redirect "/login")) by reflexivity.
  apply (signup_then_login Demo.minaForm None Sample.world Hok).
  - discriminate.
  - discriminate.
  - reflexivity.
Defined.

Example login_after_signup :
  fst (post_login "mina@clinic.example" "secret" None
         (snd (post_signup Demo.minaForm Sample.world)))
  = Val (Redirect "/patient/65f0c0de0000000000000000",
         Some "65f0c0de0000000000000001").
Proof. reflexivity. Qed.

Example login_wrong_password :
  post_login "doc1@clinic.example" "guess" None Demo.world
  = (Val (Redirect "/login", None),
     mkWorld Demo.store 0 1700000000000 [("error", "Incorrect password")]
       [Call.User_findOne]).
Proof. reflexivity. Qed.

(** What the session middleware does when the session names a stored
    user. *)
Lemma session_resolves `{P : Platform}
    (u : User.t) (id : string) (route : Request -> M Response) (w : World) :
  ObjectId_fromString (User._id u) = Some (User._id u) ->
  find (fun x => User._id x =? User._id u) (DB.users (db w)) = Some u ->
  with_session (Some (serializeUser u)) id route w
  = match route (mkRequest (Some u) id) w with
    | (Val r, w') => (Val (r, Some (serializeUser u)), w')
    | (Throw e, w') => (Throw e, w')
    end.
Proof.
  intros Hid Hfind.
  unfold with_session, passport_session, deserializeUser, User_findById,
    serializeUser. step.
  rewrite Hid. simpl. rewrite Hfind. simpl.
  destruct (route (mkRequest (Some u) id) w) as [[r|e] w']; reflexivity.
Qed.

(** X19: a stored patient-role user who logs in is sent to /patient/ and
    the text of the patient reference.  Following that redirect with the
    new session, a user whose reference names a stored patient gets that
    patient's detail page; a user with no reference is sent to
    /patient/undefined, which the route turns into a redirect to
    /dashboard. *)
Theorem patient_login_lands `{P : Platform} `{Pw : Passwords}
    (email password : string) (s : Session) (w : World) (u : User.t) :
  email <> "" -> password <> "" ->
  find (fun x => User.email x =? email) (DB.users (db w)) = Some u ->
  comparePassword password (User.password u) = true ->
  User.role u = "patient" ->
  ObjectId_fromString (User._id u) = Some (User._id u) ->
  find (fun x => User._id x =? User._id u) (DB.users (db w)) = Some u ->
  let s' := Some (serializeUser u) in
  let w1 := snd (post_login email password s w) in
  fst (post_login email password s w)
  = Val (Redirect ("/patient/" ++ String_ (User.patient u)), s')
  /\ match User.patient u with
     | None =>
         fst (with_session s' "undefined" route_get_patient w1)
         = Val (Redirect "/dashboard", s')
     | Some pid =>
         forall p,
           pid <> "" -> pid <> "undefined" ->
           ObjectId_fromString pid = Some pid ->
           find (fun q => Patient._id q =? pid) (DB.patients (db w)) = Some p ->
           fst (with_session s' pid route_get_patient w1)
           = Val (Render (patientView p), s')
     end.
Proof.
  intros He Hp Hfind Hmatch Hrole Hid Hself.
  rewrite (login_accepts email password s w u He Hp Hfind Hmatch).
  simpl fst. simpl snd. split.
  - unfold login_redirect. rewrite Hrole. reflexivity.
  - destruct (User.patient u) as [pid|].
    + intros p Hne1 Hne2 Hpid Hpat.
      rewrite session_resolves; [|exact Hid|exact Hself].
      unfold route_get_patient, isAuth, get_patient, ObjectId_isValid,
        Patient_findById. simpl.
      apply String.eqb_neq in Hne1. apply String.eqb_neq in Hne2.
      rewrite Hne1, Hne2. simpl. rewrite Hpid. simpl. step.
      rewrite Hpid. simpl. rewrite Hpat. reflexivity.
    + rewrite session_resolves; [|exact Hid|exact Hself]. reflexivity.
Qed.

Lemma patient_login_lands_witness :
  fst (post_login "loose@clinic.example" "pw4" None Demo.world)
  = Val (Redirect "/patient/undefined", Some "65f0bbbb0000000000000004")
  /\ fst (with_session (Some "65f0bbbb0000000000000004") "undefined"
            route_get_patient
            (snd (post_login "loose@clinic.example" "pw4" None Demo.world)))
     = Val (Redirect "/dashboard", Some "65f0bbbb0000000000000004").
Proof.
  apply (patient_login_lands "loose@clinic.example" "pw4" None Demo.world
           Demo.looseUser); try reflexivity; discriminate.
Defined.

Example patient_login_own_page :
  fst (with_session (Some "65f0bbbb0000000000000003") Sample.pid1
         route_get_patient
         (snd (post_login "asha@clinic.example" "pw3" None Demo.world)))
  = Val (Render (patientView Sample.asha), Some "65f0bbbb0000000000000003").
Proof. reflexivity. Qed.

(** X20: a request whose session is empty, as after a logout, or names a
    user that is no longer stored, is redirected to /login by every route
    behind isAuth, with nothing read by the handler or written; a session
    that named a missing user is emptied. *)
Theorem no_session_no_entry `{P : Platform}
    (s0 : Session) (sid id : string) (oid : ObjectId)
    (next : Request -> M Response) (w : World) :
  ObjectId_fromString sid = Some oid ->
  find (fun x => User._id x =? oid) (DB.users (db w)) = None ->
  with_session (Some sid) id (fun req => isAuth req (next req)) w
  = (Val (Redirect "/login", None), w)
  /\ with_session (snd (get_logout s0)) id
       (fun req => isAuth req (next req)) w
     = (Val (Redirect "/login", None), w).
Proof.
  intros Hsid Hnone.
  unfold with_session, passport_session, deserializeUser, User_findById,
    get_logout, isAuth. step.
  rewrite Hsid. simpl. rewrite Hnone. simpl.
  destruct w. split; reflexivity.
Qed.

Lemma no_session_no_entry_witness :
  with_session (Some "65f0bbbb00000000000000ee") Sample.pid1
    (fun req => isAuth req (get_patient req)) Sample.world
  = (Val (Redirect "/login", None), Sample.world)
  /\ with_session (snd (get_logout (Some Sample.uid1))) Sample.pid1
       (fun req => isAuth req (get_patient req)) Sample.world
     = (Val (Redirect "/login", None), Sample.world).
Proof.
  apply (no_session_no_entry (Some Sample.uid1) "65f0bbbb00000000000000ee"
           Sample.pid1 "65f0bbbb00000000000000ee"
           (fun req => get_patient req) Sample.world); reflexivity.
Defined.

(** ** The doctor's medicine view *)

(** X21: on the doctor's medicine view, as on the patient's, the patient
    is dereferenced before it is tested, but here inside try/catch: for a
    well-formed id of no stored patient the answer is 500 Server Error,
    the 404 answer is never given, and nothing is written.  For a stored
    patient the view shows that patient's medicines in the order the
    database returns them. *)
Theorem doctor_medicine_view `{P : Platform}
    (sort_id_desc : list Medicine.t -> list Medicine.t)
    (u : User.t) (id : string) (w : World) :
  User.role u = "doctor" ->
  (forall body,
      fst (route_get_doctor_patient_medicines sort_id_desc
             (mkRequest (Some u) id) w) <> Val (Send 404 body))
  /\ db (snd (route_get_doctor_patient_medicines sort_id_desc
                (mkRequest (Some u) id) w)) = db w
  /\ (forall oid,
         ObjectId_fromString id = Some oid ->
         find (fun p => Patient._id p =? oid) (DB.patients (db w)) = None ->
         route_get_doctor_patient_medicines sort_id_desc
           (mkRequest (Some u) id) w
         = (Val (Send 500 "Server Error"),
            mkWorld (db w) (oids w) (now w) (flash w)
              (Call.Patient_findById :: calls w)))
  /\ (forall p,
         ObjectId_fromString id = Some (Patient._id p) ->
         find (fun q => Patient._id q =? Patient._id p) (DB.patients (db w))
         = Some p ->
         fst (route_get_doctor_patient_medicines sort_id_desc
                (mkRequest (Some u) id) w)
         = Val (Render (medicineView p
                  (sort_id_desc (medicines_of (Patient._id p) (db w)))))).
Proof.
  intros Hrole.
  unfold route_get_doctor_patient_medicines, isAuth, isDoctor,
    get_doctor_patient_medicines, Patient_findById, Medicine_find_patient,
    medicines_of.
  simpl. rewrite Hrole. simpl. step.
  split; [|split; [|split]].
  - intros body.
    destruct (ObjectId_fromString id); simpl; [|discriminate].
    destruct (find _ (DB.patients (db w))); simpl; discriminate.
  - destruct (ObjectId_fromString id); simpl; [|reflexivity].
    destruct (find _ (DB.patients (db w))); reflexivity.
  - intros oid Hid Hnone. rewrite Hid. simpl. rewrite Hnone. reflexivity.
  - intros p Hid Hfind. rewrite Hid. simpl. rewrite Hfind. reflexivity.
Qed.

Lemma doctor_medicine_view_witness :
  route_get_doctor_patient_medicines (fun l => l)
    (mkRequest (Some Sample.doctor1) "65f0aaaa00000000000000ee") Sample.world
  = (Val (Send 500 "Server Error"),
     mkWorld Sample.store 0 1700000000000 [] [Call.Patient_findById]).
Proof.
  destruct (doctor_medicine_view (fun l => l) Sample.doctor1
              "65f0aaaa00000000000000ee" Sample.world eq_refl)
    as [_ [_ [Hmissing _]]].
  apply (Hmissing "65f0aaaa00000000000000ee"); reflexivity.
Defined.

(** ** Who may see and change what *)

(** X22: the patient detail page and the patient's medicine view do not
    depend on who asks, and the three medicine-changing routes do not
    depend on which doctor asks: with the same path id and form, any two
    authenticated users (any two doctors) get the same response and the
    same effect. *)
Theorem routes_without_ownership `{P : Platform}
    (u1 u2 : User.t) (id : string) (f : MedicineForm.t) (w : World) :
  route_get_patient (mkRequest (Some u1) id) w
  = route_get_patient (mkRequest (Some u2) id) w
  /\ route_get_patient_medicines (mkRequest (Some u1) id) w
     = route_get_patient_medicines (mkRequest (Some u2) id) w
  /\ (User.role u1 = "doctor" -> User.role u2 = "doctor" ->
      route_post_doctor_patient_medicines (mkRequest (Some u1) id) f w
      = route_post_doctor_patient_medicines (mkRequest (Some u2) id) f w
      /\ route_post_doctor_medicine_update (mkRequest (Some u1) id) f w
         = route_post_doctor_medicine_update (mkRequest (Some u2) id) f w
      /\ route_post_doctor_medicine_delete (mkRequest (Some u1) id) w
         = route_post_doctor_medicine_delete (mkRequest (Some u2) id) w).
Proof.
  split; [reflexivity|]. split; [reflexivity|].
  intros H1 H2.
  unfold route_post_doctor_patient_medicines,
    route_post_doctor_medicine_update, route_post_doctor_medicine_delete,
    isAuth, isDoctor.
  simpl. rewrite H1, H2. repeat split.
Qed.

Lemma routes_without_ownership_witness :
  route_post_doctor_medicine_update
    (mkRequest (Some Sample.doctor1) Sample.mid1) Sample.medForm Sample.world
  = route_post_doctor_medicine_update
      (mkRequest (Some Sample.doctor2) Sample.mid1) Sample.medForm
      Sample.world.
Proof.
  destruct (routes_without_ownership Sample.doctor1 Sample.doctor2
              Sample.mid1 Sample.medForm Sample.world) as [_ [_ H]].
  destruct (H eq_refl eq_refl) as [_ [Hupdate _]].
  exact Hupdate.
Defined.

(** X23: the two routes that check ownership answer a bad path id
    differently.  The prescriptions list tests the id first and answers
    InValid patient Id with status 200 and no lookup; the AI insights pass
    the id to the lookup, which throws, and answer 500.  For a well-formed
    id of no stored patient both answer Patient not found with status
    200, whoever the doctor is. *)
Theorem owner_checked_routes_errors `{P : Platform}
    (u : User.t) (id : string) (w : World) :
  User.role u = "doctor" ->
  (ObjectId_fromString id = None ->
   route_get_doctor_patient_prescriptions (mkRequest (Some u) id) w
   = (Val (Send 200 "InValid patient Id"), w)
   /\ route_get_doctor_patient_ai_insights (mkRequest (Some u) id) w
      = (Val (Send 500 "AI analysis failed"),
         mkWorld (db w) (oids w) (now w) (flash w)
           (Call.Patient_findById :: calls w)))
  /\ (forall oid,
         ObjectId_fromString id = Some oid ->
         find (fun p => Patient._id p =? oid) (DB.patients (db w)) = None ->
         fst (route_get_doctor_patient_prescriptions (mkRequest (Some u) id) w)
         = Val (Send 200 "Patient not found")
         /\ fst (route_get_doctor_patient_ai_insights
                   (mkRequest (Some u) id) w)
            = Val (Send 200 "Patient not found")).
Proof.
  intros Hrole.
  unfold route_get_doctor_patient_prescriptions,
    route_get_doctor_patient_ai_insights, isAuth, isDoctor,
    get_doctor_patient_prescriptions, get_doctor_patient_ai_insights,
    ObjectId_isValid, Patient_findById.
  simpl. rewrite Hrole. simpl. step. split.
  - intros Hbad. rewrite Hbad. simpl. destruct w. split; reflexivity.
  - intros oid Hid Hnone. rewrite Hid. simpl. rewrite Hnone.
    split; reflexivity.
Qed.

Lemma owner_checked_routes_errors_witness :
  (route_get_doctor_patient_prescriptions
     (mkRequest (Some Sample.doctor1) "xyz") Sample.world
   = (Val (Send 200 "InValid patient Id"), Sample.world)
   /\ route_get_doctor_patient_ai_insights
        (mkRequest (Some Sample.doctor1) "xyz") Sample.world
      = (Val (Send 500 "AI analysis failed"),
         mkWorld Sample.store 0 1700000000000 [] [Call.Patient_findById])).
Proof.
  destruct (owner_checked_routes_errors Sample.doctor1 "xyz" Sample.world
              eq_refl) as [Hbad _].
  apply Hbad. reflexivity.
Defined.

(** ** The dashboard, twice *)

(** X24: opening the dashboard a second time with the same request
    changes nothing more: the store after two visits is the store after
    one, whoever asks and whatever the first visit did. *)
Theorem dashboard_twice `{P : Platform} (req : Request) (w : World) :
  db (snd (route_get_doctor_dashboard req
             (snd (route_get_doctor_dashboard req w))))
  = db (snd (route_get_doctor_dashboard req w)).
Proof.
  unfold route_get_doctor_dashboard, isAuth, isDoctor, get_doctor_dashboard,
    Patient_findById_oid, Patient_save, Medicine_find_in.
  destruct req as [[u|] id]; simpl; [|reflexivity].
  destruct (User.role u =? "doctor"); [|reflexivity].
  step.
  destruct (User.patient u) as [pid|]; simpl; [|reflexivity].
  destruct (find _ (DB.patients (db w))) as [p|] eqn:Hfind; simpl.
  - destruct (find_id_some _ _ _ Hfind) as [_ Hid].
    destruct (Patient.assignedDoctor p) as [d|] eqn:Hd; simpl.
    + rewrite Hfind. simpl. rewrite Hd. reflexivity.
    + rewrite Hid.
      rewrite (find_replace Patient._id pid _ p
                 (Patient.set_assignedDoctor (User._id u) p) Hfind Hid).
      reflexivity.
  - rewrite Hfind. reflexivity.
Qed.

(** ** Patient codes stay unique *)

Lemma serve_oids `{P : Platform} (a : Action) (w : World) :
  oids w <= oids (snd (serve a w))
  /\ (List.length (DB.patients (db (snd (serve a w))))
      <> List.length (DB.patients (db w)) ->
      oids w < oids (snd (serve a w))).
Proof.
  destruct a as [f|req|req|req|req f|req f|req|req|req f|req]; simpl.
  - unfold post_signup, signup_create_user, User_findOne, Patient_findOne,
      Patient_create, new_User, User_save. step.
    branches; (split; [lia|]); intros H; try lia; contradiction.
  - unfold route_get_patient, isAuth, get_patient, Patient_findById. step.
    branches; (split; [lia|]); intros H; contradiction.
  - unfold route_get_doctor_dashboard, isAuth, isDoctor, get_doctor_dashboard,
      Patient_findById_oid, Patient_save, Medicine_find_in. step.
    branches; (split; [lia|]); intros H; try contradiction.
    rewrite length_map in H. contradiction.
  - unfold route_get_patient_medicines, isAuth, get_patient_medicines,
      Patient_findById, Medicine_find_patient. step.
    branches; (split; [lia|]); intros H; contradiction.
  - unfold route_post_doctor_patient_medicines, isAuth, isDoctor,
      post_doctor_patient_medicines, new_Medicine, Medicine_save_new,
      Medicine_assign. step.
    branches; (split; [lia|]); intros H; contradiction.
  - unfold route_post_doctor_medicine_update, isAuth, isDoctor,
      post_doctor_medicine_update, Medicine_findById, Medicine_save,
      Medicine_assign. step.
    branches; (split; [lia|]); intros H; contradiction.
  - unfold route_post_doctor_medicine_delete, isAuth, isDoctor,
      post_doctor_medicine_delete, Medicine_findByIdAndDelete. step.
    branches; (split; [lia|]); intros H; contradiction.
  - unfold route_get_doctor_patient_prescriptions, isAuth, isDoctor,
      get_doctor_patient_prescriptions, ObjectId_isValid, Patient_findById,
      Prescription_find. step.
    branches; (split; [lia|]); intros H; contradiction.
  - unfold route_post_doctor_patient_prescriptions, isAuth, isDoctor,
      post_doctor_patient_prescriptions, new_Prescription, Prescription_save.
    step.
    branches; (split; [lia|]); intros H; contradiction.
  - unfold route_get_doctor_patient_ai_insights, isAuth, isDoctor,
      get_doctor_patient_ai_insights, Patient_findById, Prescription_find.
    step.
    branches; (split; [lia|]); intros H; contradiction.
Qed.

Lemma serve_all_oids `{P : Platform} (acts : list Action) (w : World) :
  oids w <= oids (serve_all acts w).
Proof.
  revert w. induction acts as [|a acts IH]; intros w; simpl; [lia|].
  pose proof (proj1 (serve_oids a w)). pose proof (IH (snd (serve a w))). lia.
Qed.

Lemma serve_patients_distinct `{P : Platform} (n : nat) (a : Action)
    (w : World) :
  (forall i j, i < n -> j < n ->
               ObjectId_generate i = ObjectId_generate j -> i = j) ->
  oids (snd (serve a w)) <= n ->
  patients_distinct n w -> patients_distinct n (snd (serve a w)).
Proof.
  intros Hinj Hbound [Hids [Hcodes Hfresh]].
  destruct (serve_oids a w) as [Hmono Hgrow].
  unfold patients_distinct.
  destruct (serve_patients_shape a w)
    as [Hsame|[[p [Happ [Hpid [_ Hcode]]]]|[p0 [d [Hp0 [_ Hmap]]]]]].
  - rewrite Hsame. split; [exact Hids|]. split; [exact Hcodes|].
    intros k Hk Hn. apply Hfresh; lia.
  - assert (Hlt : oids w < oids (snd (serve a w))).
    { apply Hgrow. rewrite Happ, length_app. simpl. lia. }
    rewrite Happ, !map_app. simpl. split; [|split].
    + apply NoDup_snoc; [exact Hids|]. rewrite Hpid. apply Hfresh; lia.
    + apply NoDup_snoc; [exact Hcodes|].
      intros Hin. apply in_map_iff in Hin. destruct Hin as [x [Hx Hin]].
      pose proof (find_none _ _ Hcode x Hin) as Hn. simpl in Hn.
      rewrite Hx, String.eqb_refl in Hn. discriminate.
    + intros k Hk Hn Hin. apply in_app_or in Hin.
      destruct Hin as [Hin|[Hin|[]]].
      * apply (Hfresh k); [lia|exact Hn|exact Hin].
      * rewrite Hpid in Hin.
        assert (oids w = k) by (apply Hinj; [lia|lia|exact Hin]). lia.
  - assert (Hid : map Patient._id (DB.patients (db (snd (serve a w))))
                  = map Patient._id (DB.patients (db w))).
    { rewrite Hmap, map_map. apply map_ext. intros x.
      destruct (Patient._id x =? Patient._id p0) eqn:E; [|reflexivity].
      apply String.eqb_eq in E. simpl. symmetry. exact E. }
    assert (Hcd : map Patient.patientCode
                    (DB.patients (db (snd (serve a w))))
                  = map Patient.patientCode (DB.patients (db w))).
    { rewrite Hmap, map_map. apply map_ext_in. intros x Hx.
      destruct (Patient._id x =? Patient._id p0) eqn:E; [|reflexivity].
      apply String.eqb_eq in E. simpl.
      apply find_some in Hp0. destruct Hp0 as [Hin0 _].
      rewrite (NoDup_map_eq Patient._id _ x p0 Hids Hx Hin0 E). reflexivity. }
    rewrite Hid, Hcd. split; [exact Hids|]. split; [exact Hcodes|].
    intros k Hk Hn. apply Hfresh; lia.
Qed.

(** X25: if the stored patients have distinct identifiers and distinct
    patient codes (the identifiers the driver generates during the run
    being distinct and unused), they still have after any sequence of
    requests: signup, the only route that adds a patient, refuses a code
    in use, and the dashboard's save changes neither identifier nor
    code. *)
Theorem patient_codes_stay_unique `{P : Platform} (n : nat)
    (acts : list Action) (w : World) :
  (forall i j, i < n -> j < n ->
               ObjectId_generate i = ObjectId_generate j -> i = j) ->
  oids (serve_all acts w) <= n ->
  patients_distinct n w ->
  patients_distinct n (serve_all acts w).
Proof.
  intros Hinj. revert w.
  induction acts as [|a acts IH]; intros w Hbound Hw; simpl in *; [exact Hw|].
  apply IH; [exact Hbound|].
  apply (serve_patients_distinct n); [exact Hinj| |exact Hw].
  pose proof (serve_all_oids acts (snd (serve a w))). lia.
Qed.

Lemma patient_codes_stay_unique_witness :
  patients_distinct 4
    (serve_all
       [PostSignup Demo.minaForm;
        PostSignup (SignupForm.mk "noor@clinic.example" "secret" "patient"
                      "Noor" "PAT-MINA03");
        GetDoctorDashboard (mkRequest (Some Sample.doctor1) "")]
       Sample.world).
Proof.
  apply (patient_codes_stay_unique 4).
  - intros i j Hi Hj.
    repeat (destruct i as [|i]; try lia);
      repeat (destruct j as [|j]; try lia);
      intros H; try reflexivity; discriminate H.
  - simpl. lia.
  - split; [|split].
    + simpl. constructor.
      * intros [H|[]]. discriminate H.
      * constructor; [intros []|constructor].
    + simpl. constructor.
      * intros [H|[]]. discriminate H.
      * constructor; [intros []|constructor].
    + intros k _ Hk.
      repeat (destruct k as [|k]; try lia);
        intros [H|[H|[]]]; discriminate H.
Defined.

Example second_signup_same_code_refused :
  map Patient.patientCode
    (DB.patients
       (db (serve_all
              [PostSignup Demo.minaForm;
               PostSignup (SignupForm.mk "noor@clinic.example" "secret"
                             "patient" "Noor" "PAT-MINA03")]
              Sample.world)))
  = ["PAT-ASHA01"; "PAT-RAVI02"; "PAT-MINA03"].
Proof. reflexivity. Qed.
